(** * StandardAtmosphere: table-driven piecewise-linear interpolation

    A shallow embedding of [StandardAtmosphere.py] and the properties of its
    breakpoint locator, its linear interpolator and its accessors.

    Numbers.  A Python number of the module is an [int] or a [float]: an
    integer of any size ([Z]) or a binary64 value (a primitive [float], whose
    operations round to nearest, ties to even, as the hardware does).  A
    comparison of two numbers compares their exact values; arithmetic on
    two ints is exact, any other arithmetic converts an int operand to
    [float] first, which raises [OverflowError] for an int beyond binary64.

    Failure.  Indexing a list out of range, looking up a missing key,
    dividing by zero and converting too large an int raise in Python; the
    embedding returns [Raise _].

    Output.  [print] appends a line to the standard output; an accessor is a
    computation in [io], which carries the lines printed so far. *)

From Stdlib Require Import ZArith QArith Qabs Qpower Lqa Lia Floats.
From stdpp Require Import base option list strings gmap.

Set Warnings "-inexact-float".

(** ** Exceptions and the two effects of the module *)

Inductive exn : Set :=
| IndexError
| KeyError
| ZeroDivisionError
| OverflowError.

Inductive result (A : Type) : Type :=
| Ok (a : A)
| Raise (e : exn).

Arguments Ok {A} a.
Arguments Raise {A} e.

#[global] Instance result_ret : MRet result := fun _ a => Ok a.
#[global] Instance result_bind : MBind result := fun _ _ f r =>
  match r with
  | Ok a => f a
  | Raise e => Raise e
  end.

(** A computation that may print: the lines written to the standard output,
    in order, and the outcome. *)
Definition io (A : Type) : Type := (list string * result A)%type.

#[global] Instance io_ret : MRet io := fun _ a => ([], Ok a).
#[global] Instance io_bind : MBind io := fun _ _ f m =>
  match m with
  | (out, Ok a) => let '(out', r) := f a in (out ++ out', r)
  | (out, Raise e) => (out, Raise e)
  end.

Definition print (line : string) : io unit := ([line], Ok tt).
Definition lift {A} (r : result A) : io A := ([], r).

Definition stdout {A} (m : io A) : list string := fst m.
Definition outcome {A} (m : io A) : result A := snd m.

(** ** Python numbers *)

(** An [int] or a [float]. *)
Inductive num : Set :=
| Int (z : Z)
| Float (f : float).

(** The exact value of a number: a rational, an infinity, or no value for a
    NaN. *)
Inductive exact : Set :=
| not_a_number
| minus_infinity
| real (q : Q)
| plus_infinity.

Module Py.

(** The value of a [float], read off its sign, mantissa and exponent. *)
Definition exact_of_float (f : float) : exact :=
  match Prim2SF f with
  | S754_nan => not_a_number
  | S754_infinity true => minus_infinity
  | S754_infinity false => plus_infinity
  | S754_zero _ => real 0
  | S754_finite s m e => real (inject_Z (cond_Zopp s (Zpos m)) * 2 ^ e)
  end.

Definition exact_of (a : num) : exact :=
  match a with
  | Int z => real (inject_Z z)
  | Float f => exact_of_float f
  end.

Definition Qltb (p q : Q) : bool := (Qnum p * QDen q <? Qnum q * QDen p)%Z.

Definition exact_lt (a b : exact) : bool :=
  match a, b with
  | not_a_number, _ | _, not_a_number => false
  | minus_infinity, minus_infinity => false
  | minus_infinity, _ => true
  | real _, minus_infinity => false
  | real p, real q => Qltb p q
  | real _, plus_infinity => true
  | plus_infinity, _ => false
  end.

Definition exact_eq (a b : exact) : bool :=
  match a, b with
  | minus_infinity, minus_infinity => true
  | real p, real q => Qeq_bool p q
  | plus_infinity, plus_infinity => true
  | _, _ => false
  end.

(** [a < b], [a > b], [a <= b], [a >= b] and [a == b] on ints and floats,
    mixed or not: Python compares the exact values, and every comparison
    with a NaN is false. *)
Definition lt (a b : num) : bool := exact_lt (exact_of a) (exact_of b).
Definition gt (a b : num) : bool := lt b a.
Definition eq (a b : num) : bool := exact_eq (exact_of a) (exact_of b).
Definition le (a b : num) : bool := lt a b || eq a b.
Definition ge (a b : num) : bool := le b a.

(** The first magnitude an int cannot have to convert: the midpoint between
    the largest binary64 value and [2^1024], which rounds to [2^1024]. *)
Definition int_limit : Z := 2 ^ 1024 - 2 ^ 970.

(** [float(z)]: the nearest binary64 value, ties to even, or
    [OverflowError]. *)
Definition float_of_int (z : Z) : result float :=
  if (Z.abs z <? int_limit)%Z
  then Ok (SF2Prim (binary_normalize prec emax z 0 false))
  else Raise OverflowError.

(** The conversion of an operand of mixed arithmetic. *)
Definition to_float (a : num) : result float :=
  match a with
  | Int z => float_of_int z
  | Float f => Ok f
  end.

(** [x / y] on two ints: the quotient correctly rounded to binary64. *)
Definition int_truediv (x y : Z) : result float :=
  if (y =? 0)%Z then Raise ZeroDivisionError else
  let s := xorb (x <? 0)%Z (y <? 0)%Z in
  match x with
  | Z0 => Ok (SF2Prim (S754_zero s))
  | _ =>
      let '(m, e, l) := SFdiv_core_binary prec emax (Z.abs x) 0 (Z.abs y) 0 in
      match binary_round_aux prec emax s m e l with
      | S754_infinity _ => Raise OverflowError
      | q => Ok (SF2Prim q)
      end
  end.

(** [a - b]. *)
Definition sub (a b : num) : result num :=
  match a, b with
  | Int x, Int y => Ok (Int (x - y))
  | _, _ => fa ← to_float a; fb ← to_float b; mret (Float (fa - fb))
  end.

(** [a + b]. *)
Definition add (a b : num) : result num :=
  match a, b with
  | Int x, Int y => Ok (Int (x + y))
  | _, _ => fa ← to_float a; fb ← to_float b; mret (Float (fa + fb))
  end.

(** [a * b]. *)
Definition mul (a b : num) : result num :=
  match a, b with
  | Int x, Int y => Ok (Int (x * y))
  | _, _ => fa ← to_float a; fb ← to_float b; mret (Float (fa * fb))
  end.

(** [a / b], true division: always a float. *)
Definition truediv (a b : num) : result num :=
  match a, b with
  | Int x, Int y => q ← int_truediv x y; mret (Float q)
  | _, _ =>
      fa ← to_float a; fb ← to_float b;
      if (fb =? 0)%float then Raise ZeroDivisionError
      else mret (Float (fa / fb))
  end.

(** [math.pow(10, e)] for the two small integer exponents of the module,
    4 and -5, where the power of ten or its inverse is the correctly rounded
    value the C library returns: [10000.0] and [1e-05]. *)
Definition math_pow_10 (e : Z) : float :=
  let p := SF2Prim (binary_normalize prec emax (10 ^ Z.abs e) 0 false) in
  if (0 <=? e)%Z then p else (1 / p)%float.

(** [l[i]] for an index [i >= 0]. *)
Definition getitem {A} (l : list A) (i : nat) : result A :=
  match l !! i with
  | Some x => Ok x
  | None => Raise IndexError
  end.

(** [l[-1]]. *)
Definition getlast {A} (l : list A) : result A :=
  match last l with
  | Some x => Ok x
  | None => Raise IndexError
  end.

(** [d[k]] on a dict. *)
Definition getkey {A} (d : gmap string A) (k : string) : result A :=
  match d !! k with
  | Some x => Ok x
  | None => Raise KeyError
  end.

End Py.

Declare Scope num_scope.
Delimit Scope num_scope with num.
Bind Scope num_scope with num.
Notation "a < b" := (Py.lt a b = true) : num_scope.
Notation "a > b" := (Py.gt a b = true) : num_scope.
Notation "a <= b" := (Py.le a b = true) : num_scope.
Notation "a >= b" := (Py.ge a b = true) : num_scope.
Notation "a == b" := (Py.eq a b = true) : num_scope.
Local Open Scope num_scope.

(** ** The look-up table *)

Definition altitude_data : list num :=
  Int <$> [-1000; 0; 1000; 2000; 3000; 4000; 5000; 6000; 7000; 8000;
   9000; 10000; 15000; 20000; 25000; 30000; 40000; 50000; 60000; 70000;
   80000]%Z.

Definition temperature_data : list num :=
  [Float 21.5; Int 15; Float 8.5; Int 2; Float (-4.49); Float (-10.98);
   Float (-17.47); Float (-23.96); Float (-30.45);
   Float (-36.94); Float (-43.42); Float (-49.9); Float (-56.5);
   Float (-56.5); Float (-51.6); Float (-46.64); Float (-22.8); Float (-2.5);
   Float (-26.13);
   Float (-53.57); Float (-74.51)].

Definition pressure_data : list num :=
  Float <$> [11.39; 10.13; 8.988; 7.95; 7.012; 6.166; 5.405; 4.722; 4.111;
   3.565; 3.08; 2.65; 1.211; 0.5529; 0.2549; 0.1197; 0.0287; 0.007978;
   0.002196; 0.00052; 0.00011]%float.

Definition density_data : list num :=
  Float <$> [1.347; 1.225; 1.112; 1.007; 0.9093; 0.8194; 0.7364; 0.6601;
   0.59; 0.5258; 0.4671; 0.4135; 0.1948; 0.08891; 0.04008; 0.01841;
   0.003996; 0.001027; 0.0003097; 0.00008283; 0.00001846]%float.

Definition dynamic_viscosity_data : list num :=
  Float <$> [1.821; 1.789; 1.758; 1.726; 1.694; 1.661; 1.628;
   1.595; 1.561; 1.527; 1.493; 1.458; 1.422; 1.422; 1.448; 1.475; 1.601;
   1.704; 1.584; 1.438; 1.321]%float.

Definition standard_atmosphere_lookup : gmap string (list num) :=
  <["dynamic_viscosity" := dynamic_viscosity_data]>
  (<["density" := density_data]>
  (<["pressure" := pressure_data]>
  (<["temperature" := temperature_data]>
  (<["altitude" := altitude_data]> ∅)))).

(** ** get_index *)

(** The loop [while data[i] < value: i += 1].  [rest] is [data[i:]]; reading
    [data[i]] past the end of the list raises. *)
Fixpoint get_index_loop (value : num) (rest : list num) (i : nat)
  : result nat :=
  match rest with
  | [] => Raise IndexError
  | d :: rest' =>
      if Py.lt d value then get_index_loop value rest' (S i) else Ok i
  end.

(** [None] is Python's [None]: the value lies above the last element. *)
Definition get_index (value : num) (data : list num) : result (option nat) :=
  hi ← Py.getlast data;
  if Py.gt value hi then mret None else
  lo ← Py.getitem data 0;
  if Py.lt value lo then mret (Some 0%nat) else
  i ← get_index_loop value (drop 1 data) 1;
  mret (Some i).

(** ** linear_interpolate *)

Definition linear_interpolate (target_x : num) (x_data y_data : list num)
  : result num :=
  index ← get_index target_x x_data;
  let index :=
    match index with
    | None => (length x_data - 1)%nat
    | Some i => i
    end in
  let index := if (index =? 0)%nat then 1%nat else index in
  x_n1 ← Py.getitem x_data index;
  x_n ← Py.getitem x_data (index - 1);
  y_n1 ← Py.getitem y_data index;
  y_n ← Py.getitem y_data (index - 1);
  rise ← Py.sub y_n1 y_n;
  run ← Py.sub x_n1 x_n;
  slope ← Py.truediv rise run;
  distance ← Py.sub target_x x_n;
  product ← Py.mul slope distance;
  value ← Py.add y_n product;
  mret value.

(** ** The accessors *)

(** The bounds test shared by the four accessors:
    [altitude < table['altitude'][0] or altitude > table['altitude'][-1]]. *)
Definition out_of_bounds (altitude : num) : result bool :=
  xs ← Py.getkey standard_atmosphere_lookup "altitude";
  lo ← Py.getitem xs 0;
  if Py.lt altitude lo then mret true else
  xs ← Py.getkey standard_atmosphere_lookup "altitude";
  hi ← Py.getlast xs;
  mret (Py.gt altitude hi).

Definition warn_if (b : bool) (line : string) : io unit :=
  if b then print line else mret tt.

(** The table look-up shared by the four accessors:
    [linear_interpolate(altitude, table['altitude'], table[key])]. *)
Definition interpolate_column (altitude : num) (key : string) : result num :=
  xs ← Py.getkey standard_atmosphere_lookup "altitude";
  ys ← Py.getkey standard_atmosphere_lookup key;
  linear_interpolate altitude xs ys.

Definition pressure_warning : string :=
  "StandardAtmosphere get_pressure() altitude out of bounds, proceeding with best available data".
Definition temperature_warning : string :=
  "StandardAtmosphere get_temperature() altitude out of bounds, proceeding with best available data".
Definition density_warning : string :=
  "StandardAtmosphere get_density() altitude out of bounds, proceeding with best available data".
Definition dynamic_viscocity_warning : string :=
  "StandardAtmosphere get_dynamic_viscocity() altitude out of bounds, proceeding with best available data".

Definition get_pressure (altitude : num) : io num :=
  out ← lift (out_of_bounds altitude);
  warn_if out pressure_warning;;
  pressure ← lift (interpolate_column altitude "pressure");
  let pressure := if Py.lt pressure (Int 0) then Int 0 else pressure in
  pressure ← lift (Py.mul pressure (Float (Py.math_pow_10 4)));
  mret pressure.

Definition get_temperature (altitude : num) : io num :=
  out ← lift (out_of_bounds altitude);
  warn_if out temperature_warning;;
  temperature ← lift (interpolate_column altitude "temperature");
  mret temperature.

Definition get_density (altitude : num) : io num :=
  out ← lift (out_of_bounds altitude);
  warn_if out density_warning;;
  density ← lift (interpolate_column altitude "density");
  let density := if Py.lt density (Int 0) then Int 0 else density in
  mret density.

Definition get_dynamic_viscocity (altitude : num) : io num :=
  out ← lift (out_of_bounds altitude);
  warn_if out dynamic_viscocity_warning;;
  viscocity ← lift (interpolate_column altitude "dynamic_viscosity");
  let viscocity := if Py.lt viscocity (Int 0) then Int 0 else viscocity in
  viscocity ← lift (Py.mul viscocity (Float (Py.math_pow_10 (-5))));
  mret viscocity.

Definition get_standard_atmosphere (altitude : num) : io (gmap string num) :=
  let dict : gmap string num := ∅ in
  pressure ← get_pressure altitude;
  let dict := <["pressure" := pressure]> dict in
  temperature ← get_temperature altitude;
  let dict := <["temperature" := temperature]> dict in
  viscocity ← get_dynamic_viscocity altitude;
  let dict := <["dynamic_viscosity" := viscocity]> dict in
  density ← get_density altitude;
  let dict := <["density" := density]> dict in
  let dict := <["altitude" := altitude]> dict in
  mret dict.

(** ** Vocabulary of the properties *)

(** The precondition of the locator, by positions and with Python's
    comparison. *)
Definition strictly_increasing (l : list num) : Prop :=
  ∀ i j xi xj, (i < j)%nat → l !! i = Some xi → l !! j = Some xj → xi < xj.

(** The same property as a check that runs on a concrete table. *)
Fixpoint all_above (x : num) (l : list num) : bool :=
  match l with
  | [] => true
  | y :: l' => Py.lt x y && all_above y l'
  end.

Definition strictly_increasingb (l : list num) : bool :=
  match l with
  | [] => true
  | x :: l' => all_above x l'
  end.

(** [i] is the smallest index at or after [from] whose element is greater
    than or equal to [value]. *)
Definition smallest_index_ge_from (from : nat) (data : list num) (value : num)
  (i : nat) : Prop :=
  (from ≤ i)%nat ∧
  (∃ d, data !! i = Some d ∧ d >= value) ∧
  ∀ j dj, (from ≤ j < i)%nat → data !! j = Some dj → dj < value.

(** The result of the locator as the specification words it: the smallest
    index, counted from 0, whose element is not less than the value. *)
Definition smallest_index_ge (data : list num) (value : num) (i : nat) : Prop :=
  smallest_index_ge_from 0 data value i.

(** The same in the terms of the scan, which make sense for a sequence in
    any order and for a NaN: [i] is the first index at or after [from] at
    which the test [data[i] < value] fails. *)
Definition first_index_not_below (from : nat) (data : list num) (value : num)
  (i : nat) : Prop :=
  (from ≤ i)%nat ∧
  (∃ d, data !! i = Some d ∧ Py.lt d value = false) ∧
  ∀ j dj, (from ≤ j < i)%nat → data !! j = Some dj → dj < value.

(** The index of the interval [linear_interpolate] works on, from the result
    of the locator on a sequence of [n] elements: the last interval for
    [None], the first for 0. *)
Definition bracketing_index (located : option nat) (n : nat) : nat :=
  let index := default (n - 1)%nat located in
  if (index =? 0)%nat then 1%nat else index.

(** The expression [y0 + ((y1 - y0) / (x1 - x0)) * (x - x0)] as Python
    evaluates it: its binary64 value, or the error of its first operation
    that raises. *)
Definition interpolate_between (x0 y0 x1 y1 x : num) : result num :=
  rise ← Py.sub y1 y0;
  run ← Py.sub x1 x0;
  slope ← Py.truediv rise run;
  distance ← Py.sub x x0;
  product ← Py.mul slope distance;
  Py.add y0 product.

(** Clamping below at 0, as the accessors do it. *)
Definition clamp (v : num) : num := if Py.lt v (Int 0) then Int 0 else v.

(** The lines an accessor prints for an altitude: its warning when the
    bounds test succeeds, nothing otherwise. *)
Definition warning_lines (altitude : num) (line : string) : list string :=
  if Py.lt altitude (Int (-1000)) || Py.gt altitude (Int 80000)
  then [line] else [].

(** The int altitudes whose distance to the breakpoint below them, 70000 at
    the top of the table and -1000 at its bottom, is too large to convert
    to [float]. *)
Definition beyond_binary64 (altitude : num) : Prop :=
  ∃ z, altitude = Int z ∧
       (z <= - (Py.int_limit + 1000) ∨ Py.int_limit + 70000 <= z)%Z.

(** [a] is a NaN. *)
Definition is_nan (a : num) : Prop := Py.exact_of a = not_a_number.

(** An order embedding of the exact values into the rationals between -1
    and 1, which turns a comparison of numbers into one of rationals. *)
Definition squash (q : Q) : Q := q / (1 + Qabs q).

Definition rank (a : exact) : Q :=
  match a with
  | not_a_number => 0
  | minus_infinity => -1
  | real q => squash q
  | plus_infinity => 1
  end.

Definition rk (a : num) : Q := rank (Py.exact_of a).

(** 1 for a NaN and 0 for any other number. *)
Definition nq (a : num) : Q :=
  match Py.exact_of a with
  | not_a_number => 1
  | _ => 0
  end.

(** The slope of an interval as Python evaluates it. *)
Definition segment_slope (x0 y0 x1 y1 : num) : result num :=
  rise ← Py.sub y1 y0;
  run ← Py.sub x1 x0;
  Py.truediv rise run.

(** A check that runs on a concrete table: the interval has int
    breakpoints [a < b] between -1000 and 80000, its slope evaluates to a
    float, and its left value converts to [float]. *)
Definition segment_ok (x0 y0 x1 y1 : num) : bool :=
  match x0, x1, segment_slope x0 y0 x1 y1, Py.to_float y0 with
  | Int a, Int b, Ok (Float _), Ok _ =>
      (-1000 <=? a)%Z && (a <? b)%Z && (b <=? 80000)%Z
  | _, _, _, _ => false
  end.

Fixpoint segments_ok (xs ys : list num) : bool :=
  match xs, ys with
  | x0 :: ((x1 :: _) as xs'), y0 :: ((y1 :: _) as ys') =>
      segment_ok x0 y0 x1 y1 && segments_ok xs' ys'
  | _, _ => true
  end.

(** The entry of index [k] of a column after the unit conversion of its
    accessor, a product with [factor] or nothing. *)
Definition converted (ys : list num) (k : nat) (factor : option float)
  : result num :=
  y ← Py.getitem ys k;
  match factor with
  | Some c => Py.mul y (Float c)
  | None => mret y
  end.

(** [a] is within a relative error of [10^-15] of [b], on exact values. *)
Definition close_to (a b : num) : bool :=
  match Py.exact_of a, Py.exact_of b with
  | real p, real q => Qle_bool (Qabs (p - q) * inject_Z (10 ^ 15)) (Qabs q)
  | _, _ => false
  end.



(** The four accessors return these numbers. *)
Definition accessors_return (altitude p t d v : num) : Prop :=
  outcome (get_pressure altitude) = Ok p ∧
  outcome (get_temperature altitude) = Ok t ∧
  outcome (get_density altitude) = Ok d ∧
  outcome (get_dynamic_viscocity altitude) = Ok v.

(** The four accessors and [get_standard_atmosphere] raise [e]. *)
Definition accessors_raise (altitude : num) (e : exn) : Prop :=
  outcome (get_pressure altitude) = Raise e ∧
  outcome (get_temperature altitude) = Raise e ∧
  outcome (get_density altitude) = Raise e ∧
  outcome (get_dynamic_viscocity altitude) = Raise e ∧
  outcome (get_standard_atmosphere altitude) = Raise e.


(** * Properties *)

(** ** The order of Python numbers *)

Lemma Qltb_lt p q : Py.Qltb p q = true ↔ (p < q)%Q.
Proof. unfold Py.Qltb, Qlt. apply Z.ltb_lt. Qed.

Lemma Qltb_ge p q : Py.Qltb p q = false ↔ (q <= p)%Q.
Proof. unfold Py.Qltb, Qle. rewrite Z.ltb_ge. reflexivity. Qed.

Lemma squash_den_pos q : (0 < 1 + Qabs q)%Q.
Proof. pose proof (Qabs_nonneg q). lra. Qed.

Lemma squash_bounds q : (-1 < squash q ∧ squash q < 1)%Q.
Proof.
  unfold squash. pose proof (squash_den_pos q).
  pose proof (Qle_Qabs q). pose proof (Qle_Qabs (- q)) as Hneg.
  rewrite Qabs_opp in Hneg. split.
  - apply Qlt_shift_div_l; [assumption|]. lra.
  - apply Qlt_shift_div_r; [assumption|]. lra.
Qed.

Lemma squash_mono p q : (p < q → squash p < squash q)%Q.
Proof.
  intros Hpq. unfold squash.
  pose proof (squash_den_pos p). pose proof (squash_den_pos q).
  apply Qlt_shift_div_l; [assumption|].
  assert (E : (p / (1 + Qabs p) * (1 + Qabs q)
               == p * (1 + Qabs q) / (1 + Qabs p))%Q) by (field; lra).
  rewrite E. apply Qlt_shift_div_r; [assumption|].
  destruct (Qlt_le_dec p 0) as [Hp|Hp], (Qlt_le_dec q 0) as [Hq|Hq].
  - rewrite (Qabs_neg p), (Qabs_neg q) by lra. nra.
  - rewrite (Qabs_neg p), (Qabs_pos q) by lra. nra.
  - lra.
  - rewrite (Qabs_pos p), (Qabs_pos q) by lra. nra.
Qed.

Lemma squash_proper p q : (p == q → squash p == squash q)%Q.
Proof. intros H. unfold squash. by rewrite H. Qed.

Lemma squash_lt p q : (p < q ↔ squash p < squash q)%Q.
Proof.
  split; [apply squash_mono|]. intros H.
  destruct (Qlt_le_dec p q) as [|Hqp]; [done|exfalso].
  destruct (Qle_lt_or_eq _ _ Hqp) as [Hlt|Heq].
  - apply squash_mono in Hlt. lra.
  - apply squash_proper in Heq. lra.
Qed.

Lemma squash_eq p q : (p == q ↔ squash p == squash q)%Q.
Proof.
  split; [apply squash_proper|]. intros H.
  destruct (Q_dec p q) as [[Hlt|Hlt]|]; [| |done];
    apply squash_mono in Hlt; lra.
Qed.

Lemma nq_cases a : (nq a == 0 ∨ nq a == 1)%Q.
Proof. unfold nq. destruct (Py.exact_of a); (by left) || by right. Qed.

Lemma is_nan_nq a : is_nan a ↔ (nq a == 1)%Q.
Proof.
  unfold is_nan, nq. destruct (Py.exact_of a); split; try done; intros H;
    by apply Qeq_bool_iff in H.
Qed.

Lemma lt_iff a b : a < b ↔ (nq a == 0 ∧ nq b == 0 ∧ rk a < rk b)%Q.
Proof.
  unfold Py.lt, nq, rk.
  destruct (Py.exact_of a) as [| |p|], (Py.exact_of b) as [| |q|]; simpl;
    try pose proof (squash_bounds p); try pose proof (squash_bounds q);
    rewrite ?Qltb_lt, ?(squash_lt p q);
    (split; [try done; intros; split_and!; (reflexivity || lra)
            |try (intros (H1 & H2 & H3); (done || (exfalso; lra)))]).
Qed.

Lemma lt_false_iff a b :
  Py.lt a b = false ↔ (nq a == 1 ∨ nq b == 1 ∨ rk b <= rk a)%Q.
Proof.
  pose proof (lt_iff a b) as H. pose proof (nq_cases a). pose proof (nq_cases b).
  destruct (Py.lt a b).
  - split; [done|]. intros Hc. destruct H as [H _]. specialize (H eq_refl). lra.
  - split; [|done]. intros _.
    destruct (Qlt_le_dec (rk a) (rk b)) as [Hlt|]; [|lra].
    destruct H as [_ H].
    assert (¬ (nq a == 0 ∧ nq b == 0)%Q) by (intros [??]; by specialize (H ltac:(done))).
    lra.
Qed.

Lemma eq_iff a b : a == b ↔ (nq a == 0 ∧ nq b == 0 ∧ rk a == rk b)%Q.
Proof.
  unfold Py.eq, nq, rk.
  destruct (Py.exact_of a) as [| |p|], (Py.exact_of b) as [| |q|]; simpl;
    try pose proof (squash_bounds p); try pose proof (squash_bounds q);
    rewrite ?Qeq_bool_iff, ?(squash_eq p q);
    (split; [try done; intros; split_and!; (reflexivity || lra)
            |try (intros (H1 & H2 & H3); (done || (exfalso; lra)))]).
Qed.

Lemma le_iff a b : a <= b ↔ (nq a == 0 ∧ nq b == 0 ∧ rk a <= rk b)%Q.
Proof.
  unfold Py.le. rewrite orb_true_iff, lt_iff, eq_iff. lra.
Qed.

Lemma le_false_iff a b :
  Py.le a b = false ↔ (nq a == 1 ∨ nq b == 1 ∨ rk b < rk a)%Q.
Proof.
  pose proof (le_iff a b) as H. pose proof (nq_cases a). pose proof (nq_cases b).
  destruct (Py.le a b).
  - split; [done|]. intros Hc. destruct H as [H _]. specialize (H eq_refl). lra.
  - split; [|done]. intros _.
    destruct (Qlt_le_dec (rk b) (rk a)) as [|Hle]; [lra|].
    destruct H as [_ H].
    assert (¬ (nq a == 0 ∧ nq b == 0)%Q) by (intros [??]; by specialize (H ltac:(done))).
    lra.
Qed.

(** Turns every comparison of numbers in the goal and the context into
    rational arithmetic and decides it. *)
Ltac order :=
  unfold Py.ge, Py.gt in *;
  rewrite ?not_true_iff_false in *;
  rewrite ?lt_iff, ?lt_false_iff, ?le_iff, ?le_false_iff, ?eq_iff,
    ?is_nan_nq in *;
  lra.

Lemma lt_int x y : Py.lt (Int x) (Int y) = (x <? y)%Z.
Proof. unfold Py.lt, Py.exact_of, Py.exact_lt, Py.Qltb. simpl. by rewrite !Z.mul_1_r. Qed.

Example order_examples (a b c : num) :
  (a < b → b <= c → a < c) ∧ (a < b → ¬ b < a) ∧ ¬ a < a ∧
  (Py.lt a b = false → a <= c → c <= b → a == b) ∧
  (is_nan a → ¬ a < b ∧ ¬ b < a ∧ ¬ a == a).
Proof. split_and!; intros; try split_and!; try intros ?; order. Qed.

(** ** Lists and dicts *)

Lemma getitem_ok {A} (l : list A) i x : l !! i = Some x → Py.getitem l i = Ok x.
Proof. intros H. unfold Py.getitem. by rewrite H. Qed.

Lemma getitem_none {A} (l : list A) i :
  l !! i = None → Py.getitem l i = Raise IndexError.
Proof. intros H. unfold Py.getitem. by rewrite H. Qed.

Lemma getlast_ok {A} (l : list A) x : last l = Some x → Py.getlast l = Ok x.
Proof. intros H. unfold Py.getlast. by rewrite H. Qed.

(** ** Ordered sequences *)

Lemma all_above_lookup x l :
  all_above x l = true →
  (∀ j xj, l !! j = Some xj → x < xj) ∧ strictly_increasing l.
Proof.
  revert x. induction l as [|y l IH]; intros x H; simpl in H.
  - split; [intros j xj Hj; by rewrite lookup_nil in Hj|].
    intros i j xi xj _ Hi. by rewrite lookup_nil in Hi.
  - apply andb_prop in H as [Hxy Hl].
    destruct (IH _ Hl) as [Hy Hinc]. split.
    + intros [|j] xj Hj; simpl in Hj.
      * by simplify_eq.
      * pose proof (Hy j xj Hj). order.
    + intros [|i] [|j] xi xj Hij Hi Hj; simpl in *; try lia.
      * simplify_eq. eauto.
      * apply (Hinc i j); [lia|done..].
Qed.

Lemma strictly_increasingb_sound l :
  strictly_increasingb l = true → strictly_increasing l.
Proof.
  destruct l as [|x l]; simpl; intros H.
  - intros i j xi xj _ Hi. by rewrite lookup_nil in Hi.
  - destruct (all_above_lookup _ _ H) as [Hx Hinc].
    intros [|i] [|j] xi xj Hij Hi Hj; simpl in *; try lia.
    + simplify_eq. eauto.
    + apply (Hinc i j); [lia|done..].
Qed.

(** No element of a strictly increasing sequence of two or more elements
    is a NaN. *)
Lemma strictly_increasing_nq l i x :
  strictly_increasing l → (2 ≤ length l)%nat → l !! i = Some x →
  (nq x == 0)%Q.
Proof.
  intros Hinc Hlen Hx. pose proof (lookup_lt_Some _ _ _ Hx) as Hi.
  destruct i as [|i].
  - destruct (lookup_lt_is_Some_2 l 1 ltac:(lia)) as [y Hy].
    pose proof (Hinc 0%nat 1%nat x y ltac:(lia) Hx Hy). order.
  - destruct (lookup_lt_is_Some_2 l 0 ltac:(lia)) as [y Hy].
    pose proof (Hinc 0%nat (S i) y x ltac:(lia) Hy Hx). order.
Qed.

Lemma strictly_increasing_le l i j xi xj :
  strictly_increasing l → (2 ≤ length l)%nat → (i ≤ j)%nat →
  l !! i = Some xi → l !! j = Some xj → xi <= xj.
Proof.
  intros Hinc Hlen Hij Hi Hj.
  pose proof (strictly_increasing_nq l i xi Hinc Hlen Hi).
  destruct (decide (i = j)) as [->|Hne].
  - rewrite Hi in Hj. simplify_eq. order.
  - pose proof (Hinc i j xi xj ltac:(lia) Hi Hj). order.
Qed.

Lemma strictly_increasing_ends data lo hi :
  strictly_increasing data → (2 ≤ length data)%nat →
  data !! 0%nat = Some lo → last data = Some hi → lo < hi.
Proof.
  intros Hinc Hlen Hlo Hhi. rewrite last_lookup in Hhi.
  apply (Hinc 0%nat (pred (length data))); [lia|done..].
Qed.

(** ** The scan of get_index *)

(** One turn of the loop, by positions: with [rest = data[i:]] the scan
    reads [data[i]], raises when [i] is past the end, goes on with [i + 1]
    when [data[i] < value] and stops with [i] otherwise. *)
Lemma get_index_loop_step value data i :
  get_index_loop value (drop i data) i
  = match data !! i with
    | None => Raise IndexError
    | Some d =>
        if Py.lt d value then get_index_loop value (drop (S i) data) (S i)
        else Ok i
    end.
Proof.
  destruct (data !! i) as [d|] eqn:Hd.
  - by rewrite (drop_S _ _ _ Hd).
  - apply lookup_ge_None in Hd. by rewrite drop_ge.
Qed.

(** The scan runs off the end of [rest] exactly when every element of [rest]
    is less than the value. *)
Lemma get_index_loop_raises value rest i e :
  get_index_loop value rest i = Raise e
  ↔ e = IndexError ∧ Forall (λ d, d < value) rest.
Proof.
  revert i. induction rest as [|d rest IH]; intros i; simpl.
  - split; [intros [= <-]; by split|by intros [-> _]].
  - destruct (Py.lt d value) eqn:E.
    + rewrite IH. split.
      * intros [-> H]. split; [done|by constructor].
      * intros [-> H]. split; [done|]. by inversion H.
    + split; [done|].
      intros [_ H]. inversion H; subst. congruence.
Qed.

(** When the scan stops, it stops at the first element of [rest] for which
    the test [d < value] fails. *)
Lemma get_index_loop_sound value rest i k :
  get_index_loop value rest i = Ok k →
  (i ≤ k)%nat ∧
  (∃ d, rest !! (k - i)%nat = Some d ∧ Py.lt d value = false) ∧
  ∀ j dj, (j < k - i)%nat → rest !! j = Some dj → dj < value.
Proof.
  revert i. induction rest as [|d rest IH]; intros i; simpl; [done|].
  destruct (Py.lt d value) eqn:E.
  - intros H.
    destruct (IH _ H) as (Hik & (x & Hx & Hvx) & Hbelow).
    split_and!; [lia| |].
    + exists x. split; [|done].
      by replace (k - i)%nat with (S (k - S i)) by lia.
    + intros [|j] dj Hj Hdj; simpl in Hdj; [by simplify_eq|].
      apply (Hbelow j); [lia|done].
  - intros [= <-].
    split_and!; [lia| |intros j dj Hj; lia].
    exists d. by rewrite Nat.sub_diag.
Qed.

(** As long as the value is not above the last element of [rest], the scan
    stops inside [rest]. *)
Lemma get_index_loop_stops value rest i hi :
  last rest = Some hi → Py.gt value hi = false →
  ∃ k, get_index_loop value rest i = Ok k.
Proof.
  intros Hlast Hhi.
  destruct (get_index_loop value rest i) as [k|e] eqn:Hloop; [by exists k|].
  apply get_index_loop_raises in Hloop as [_ Hall].
  rewrite last_lookup in Hlast.
  pose proof (Forall_lookup_1 _ _ _ _ Hall Hlast) as H. simpl in H.
  unfold Py.gt in Hhi. congruence.
Qed.

(** The three outcomes of [get_index] on a sequence of two or more elements,
    in any order. *)
Lemma get_index_cases value data lo hi :
  data !! 0%nat = Some lo → last data = Some hi → (2 ≤ length data)%nat →
  (value > hi ∧ get_index value data = Ok None)
  ∨ (Py.gt value hi = false ∧ value < lo ∧
     get_index value data = Ok (Some 0%nat))
  ∨ (Py.gt value hi = false ∧ Py.lt value lo = false ∧
     ∃ i, get_index value data = Ok (Some i) ∧ (i < length data)%nat ∧
          first_index_not_below 1 data value i).
Proof.
  intros Hlo Hlast Hlen. unfold get_index.
  rewrite (getlast_ok _ _ Hlast), (getitem_ok _ _ _ Hlo). simpl.
  destruct (Py.gt value hi) eqn:Ehi; [by left|right].
  destruct (Py.lt value lo) eqn:Elo; [by left|right].
  split_and!; [done..|].
  destruct data as [|x [|x' data']]; simpl in Hlen; try lia.
  rewrite last_cons_cons in Hlast. simpl drop.
  destruct (get_index_loop_stops value (x' :: data') 1 hi Hlast Ehi)
    as [k Hk].
  destruct (get_index_loop_sound _ _ _ _ Hk) as (Hk1 & (d & Hd & Hvd) & Hbelow).
  exists k. rewrite Hk. simpl. split_and!; [done| |].
  - apply lookup_lt_Some in Hd. simpl in *. lia.
  - split_and!; [lia| |].
    + exists d. split; [|done].
      destruct k as [|k]; [lia|]. simpl.
      by replace (S k - 1)%nat with k in Hd by lia.
    + intros [|j] dj Hj Hdj; [lia|]. simpl in Hdj.
      apply (Hbelow j); [lia|done].
Qed.

Lemma first_index_not_below_unique from data value i k :
  first_index_not_below from data value i →
  first_index_not_below from data value k → i = k.
Proof.
  intros (Hi & (di & Hdi & Hvi) & Hbi) (Hk & (dk & Hdk & Hvk) & Hbk).
  destruct (Nat.lt_trichotomy i k) as [Hlt|[Heq|Hgt]]; [|done|].
  - pose proof (Hbk i di ltac:(lia) Hdi). congruence.
  - pose proof (Hbi k dk ltac:(lia) Hdk). congruence.
Qed.

Lemma smallest_index_ge_from_first from data value i :
  smallest_index_ge_from from data value i →
  first_index_not_below from data value i.
Proof.
  intros (Hi & (d & Hd & Hvd) & Hbelow). split_and!; [done| |done].
  exists d. split; [done|]. order.
Qed.

Lemma breakpoint_is_smallest data k d value :
  strictly_increasing data → (1 ≤ k)%nat → data !! k = Some d → d == value →
  smallest_index_ge_from 1 data value k.
Proof.
  intros Hinc Hk Hd Hv. split_and!; [done| |].
  - exists d. split; [done|order].
  - intros j dj Hj Hdj. pose proof (Hinc j k dj d ltac:(lia) Hdj Hd). order.
Qed.

(** ** get_index on a strictly increasing sequence *)

(** C1, as stated, fails at the first breakpoint.  On the altitude
    sequence of the table and the value -1000, which is its element of
    index 0, [get_index] returns 1: the scan starts at index 1, so the result
    is neither the smallest index whose element is not less than the value
    nor the index of the breakpoint itself. *)
Lemma get_index_first_breakpoint :
  strictly_increasing altitude_data ∧ (2 ≤ length altitude_data)%nat ∧
  altitude_data !! 0%nat = Some (Int (-1000)) ∧
  get_index (Int (-1000)) altitude_data = Ok (Some 1%nat) ∧
  ¬ smallest_index_ge altitude_data (Int (-1000)) 1 ∧
  get_index (Int (-1000)) altitude_data ≠ Ok (Some 0%nat).
Proof.
  split_and!; [by apply strictly_increasingb_sound|simpl; lia|done..| |done].
  intros (_ & _ & Hbelow).
  by pose proof (Hbelow 0%nat (Int (-1000)) ltac:(lia) eq_refl).
Qed.

(** Between the first and the last element, [get_index] returns the
    smallest index from 1 on whose element is not less than the value. *)
Lemma get_index_between value data lo hi :
  strictly_increasing data → (2 ≤ length data)%nat →
  data !! 0%nat = Some lo → last data = Some hi →
  lo <= value → value <= hi →
  ∃ i, get_index value data = Ok (Some i) ∧ (i < length data)%nat ∧
       smallest_index_ge_from 1 data value i.
Proof.
  intros Hinc Hlen Hlo Hhi H1 H2.
  destruct (get_index_cases value data lo hi Hlo Hhi Hlen)
    as [[H _]|[(_ & H & _)|(_ & _ & i & Hget & Hi & Hi1 & (d & Hd & Hvd) & Hb)]];
    [order..|].
  exists i. split_and!; [done..|]. split_and!; [done| |exact Hb].
  exists d. split; [done|].
  pose proof (strictly_increasing_nq data i d Hinc Hlen Hd). order.
Qed.

(** At a breakpoint other than the first, [get_index] returns the index of
    the breakpoint. *)
Lemma get_index_at_breakpoint value data k d :
  strictly_increasing data → (1 ≤ k)%nat → data !! k = Some d → d == value →
  get_index value data = Ok (Some k).
Proof.
  intros Hinc Hk Hd Hv.
  pose proof (lookup_lt_Some _ _ _ Hd) as Hklen.
  destruct (lookup_lt_is_Some_2 data 0 ltac:(lia)) as [lo Hlo].
  destruct (lookup_lt_is_Some_2 data (pred (length data)) ltac:(lia))
    as [hi Hhi].
  pose proof (strictly_increasing_le data k (pred (length data)) d hi Hinc
                ltac:(lia) ltac:(lia) Hd Hhi) as Hdhi.
  pose proof (Hinc 0%nat k lo d ltac:(lia) Hlo Hd) as Hlod.
  rewrite <- last_lookup in Hhi.
  destruct (get_index_between value data lo hi) as (i & Hi & _ & Hsm);
    [done|lia|done|done|order|order|].
  rewrite Hi. do 2 f_equal.
  eapply first_index_not_below_unique;
    apply smallest_index_ge_from_first; [done|].
  by eapply breakpoint_is_smallest.
Qed.

(** At the first breakpoint, [get_index] returns 1. *)
Lemma get_index_at_first value data lo :
  strictly_increasing data → (2 ≤ length data)%nat →
  data !! 0%nat = Some lo → lo == value →
  get_index value data = Ok (Some 1%nat).
Proof.
  intros Hinc Hlen Hlo Hv.
  destruct (lookup_lt_is_Some_2 data (pred (length data)) ltac:(lia))
    as [hi Hhi].
  rewrite <- last_lookup in Hhi.
  pose proof (strictly_increasing_ends _ _ _ Hinc Hlen Hlo Hhi) as Hends.
  destruct (get_index_between value data lo hi)
    as (i & Hi & Hilen & H1 & (d & Hd & Hvd) & Hbelow);
    [done..|order|order|].
  rewrite Hi. do 2 f_equal.
  destruct (decide (i = 1%nat)) as [|Hne]; [done|].
  destruct (lookup_lt_is_Some_2 data 1 ltac:(lia)) as [d1 Hd1].
  pose proof (Hbelow 1%nat d1 ltac:(lia) Hd1).
  pose proof (Hinc 0%nat 1%nat lo d1 ltac:(lia) Hlo Hd1). order.
Qed.

(** C1, amended.  For a strictly increasing sequence of two or more
    elements, with first element [lo] and last element [hi]: [get_index]
    returns [None] exactly when the value is greater than [hi]; it returns 0
    when the value is less than [lo]; otherwise it returns the smallest index
    [i >= 1] whose element is not less than the value.  For a value equal to
    the breakpoint of index [k >= 1] the result is [k]; for a value equal to
    the first breakpoint the result is 1. *)
Theorem get_index_spec value data lo hi :
  strictly_increasing data → (2 ≤ length data)%nat →
  data !! 0%nat = Some lo → last data = Some hi →
  (get_index value data = Ok None ↔ hi < value) ∧
  (value < lo → get_index value data = Ok (Some 0%nat)) ∧
  (lo <= value → value <= hi →
   ∃ i, get_index value data = Ok (Some i) ∧ (i < length data)%nat ∧
        smallest_index_ge_from 1 data value i) ∧
  (∀ k d, (1 ≤ k)%nat → data !! k = Some d → d == value →
          get_index value data = Ok (Some k)) ∧
  (lo == value → get_index value data = Ok (Some 1%nat)).
Proof.
  intros Hinc Hlen Hlo Hhi.
  pose proof (strictly_increasing_ends _ _ _ Hinc Hlen Hlo Hhi) as Hends.
  split_and!.
  - destruct (get_index_cases value data lo hi Hlo Hhi Hlen)
      as [[H ->]|[(H & _ & ->)|(H & _ & i & -> & _)]].
    + done.
    + split; [done|]. unfold Py.gt in H. congruence.
    + split; [done|]. unfold Py.gt in H. congruence.
  - intros Hv.
    destruct (get_index_cases value data lo hi Hlo Hhi Hlen)
      as [[H _]|[(_ & _ & H)|(_ & H & _)]]; [order|done|congruence].
  - by apply get_index_between.
  - intros k d. by apply get_index_at_breakpoint.
  - by apply get_index_at_first.
Qed.

Lemma get_index_spec_witness :
  ∃ i, get_index (Float 500.5) altitude_data = Ok (Some i) ∧
       (i < length altitude_data)%nat ∧
       smallest_index_ge_from 1 altitude_data (Float 500.5) i.
Proof.
  refine (proj1 (proj2 (proj2
    (get_index_spec (Float 500.5) altitude_data (Int (-1000)) (Int 80000)
       _ _ _ _))) _ _).
  - apply strictly_increasingb_sound. reflexivity.
  - simpl. lia.
  - reflexivity.
  - reflexivity.
  - reflexivity.
  - reflexivity.
Defined.

(** ** get_index on an arbitrary sequence *)

(** X1.  [get_index] raises only [IndexError], and only on the empty
    sequence or on a sequence of one element queried with a value that is
    neither above nor below that element: equal to it, or one of the two is
    a NaN.  On two or more elements, in any order, it returns. *)
Theorem get_index_raises_iff value data e :
  get_index value data = Raise e
  ↔ e = IndexError ∧
    (data = [] ∨ ∃ x, data = [x] ∧ (x == value ∨ is_nan x ∨ is_nan value)).
Proof.
  destruct data as [|x data].
  { split; [intros [= <-]; split; [done|by left]|by intros [-> _]]. }
  unfold get_index.
  destruct (last (x :: data)) as [hi|] eqn:Hhi;
    [|by rewrite last_lookup in Hhi; apply lookup_ge_None in Hhi; simpl in Hhi; lia].
  rewrite (getlast_ok _ _ Hhi). cbn [mbind mret result_bind result_ret].
  change (Py.getitem (x :: data) 0) with (Ok x).
  cbn [mbind mret result_bind result_ret drop]. rewrite drop_0.
  pose proof (nq_cases x). pose proof (nq_cases value).
  destruct (Py.gt value hi) eqn:Ehi.
  { split; [done|]. intros [_ [|(y & [= <- ->] & Hy)]]; [done|].
    simpl in Hhi. simplify_eq. exfalso. destruct Hy as [|[|]]; order. }
  destruct (Py.lt value x) eqn:Elo.
  { split; [done|]. intros [_ [|(y & [= <- ->] & Hy)]]; [done|].
    exfalso. destruct Hy as [|[|]]; order. }
  destruct (get_index_loop value data 1) as [k|e'] eqn:Hloop; simpl.
  - split; [done|]. intros [_ [|(y & [= <- ->] & Hy)]]; done.
  - apply get_index_loop_raises in Hloop as [-> Hall].
    destruct data as [|x' data'].
    + simpl in Hhi. simplify_eq.
      split; [intros [= <-]|by intros [-> _]]. split; [done|right].
      exists hi. split; [done|].
      destruct (Py.eq hi value) eqn:Heq; [by left|right].
      rewrite <- !not_true_iff_false in *. rewrite !is_nan_nq.
      assert (¬ ((nq hi == 0)%Q ∧ (nq value == 0)%Q)); [|lra].
      intros [??]. apply Heq. order.
    + exfalso. rewrite last_cons_cons in Hhi.
      rewrite last_lookup in Hhi.
      pose proof (Forall_lookup_1 _ _ _ _ Hall Hhi) as H'. simpl in H'.
      unfold Py.gt in Ehi. congruence.
Qed.

(** X2.  Whatever the sequence, in any order: when [get_index] returns
    [None] the value is above the last element; when it returns an index,
    the index is a position of the sequence and the value is not above the
    last element; index 0 means the value is below the first element, and
    an index [i >= 1] means that the value is not below the first element
    and that [i] is the first index from 1 on at which [data[i] < value]
    fails.  When no NaN is involved that is: the value is between the first
    and the last element, and [i] is the smallest index from 1 on whose
    element is greater than or equal to the value. *)
Theorem get_index_sound value data located :
  get_index value data = Ok located →
  ∃ lo hi, data !! 0%nat = Some lo ∧ last data = Some hi ∧
    match located with
    | None => hi < value
    | Some i =>
        (i < length data)%nat ∧ ¬ hi < value ∧
        (i = 0%nat → value < lo) ∧
        ((1 ≤ i)%nat → ¬ value < lo ∧ first_index_not_below 1 data value i) ∧
        (¬ is_nan value → Forall (λ d, ¬ is_nan d) data →
         value <= hi ∧
         ((1 ≤ i)%nat → lo <= value ∧ smallest_index_ge_from 1 data value i))
    end.
Proof.
  destruct data as [|x data]; [done|].
  unfold get_index.
  destruct (last (x :: data)) as [hi|] eqn:Hhi;
    [|by rewrite last_lookup in Hhi; apply lookup_ge_None in Hhi; simpl in Hhi; lia].
  rewrite (getlast_ok _ _ Hhi). cbn [mbind mret result_bind result_ret].
  change (Py.getitem (x :: data) 0) with (Ok x).
  cbn [mbind mret result_bind result_ret drop]. rewrite drop_0.
  assert (Hnan : ¬ is_nan value → Forall (λ d, ¬ is_nan d) (x :: data) →
                 (nq value == 0 ∧ nq x == 0 ∧ nq hi == 0)%Q).
  { intros Hv Hall. rewrite last_lookup in Hhi.
    pose proof (Forall_lookup_1 _ _ _ _ Hall Hhi) as H1.
    pose proof (Forall_lookup_1 _ _ 0%nat x Hall eq_refl) as H2.
    simpl in H1, H2. pose proof (nq_cases value). pose proof (nq_cases x).
    pose proof (nq_cases hi). rewrite is_nan_nq in *. lra. }
  destruct (Py.gt value hi) eqn:Ehi.
  { intros [= <-]. by exists x, hi. }
  destruct (Py.lt value x) eqn:Elo.
  { intros [= <-]. exists x, hi.
    split_and!; [done|done|simpl; lia| |done|lia|].
    - unfold Py.gt in Ehi. congruence.
    - intros Hv Hall. destruct (Hnan Hv Hall) as (?&?&?).
      split; [order|lia]. }
  destruct (get_index_loop value data 1) as [k|e'] eqn:Hloop; [|done].
  simpl. intros [= <-]. exists x, hi.
  destruct (get_index_loop_sound _ _ _ _ Hloop)
    as (Hk & (d & Hd & Hvd) & Hbelow).
  assert (Hd' : (x :: data) !! k = Some d).
  { destruct k as [|k]; [lia|]. simpl.
    by replace (S k - 1)%nat with k in Hd by lia. }
  assert (Hb' : ∀ j dj, (1 ≤ j < k)%nat → (x :: data) !! j = Some dj →
                        dj < value).
  { intros [|j] dj Hj Hdj; [lia|]. simpl in Hdj.
    apply (Hbelow j); [lia|done]. }
  split_and!; [done|done| | |lia| |].
  - apply lookup_lt_Some in Hd. simpl. lia.
  - unfold Py.gt in Ehi. congruence.
  - intros _. split; [congruence|]. split_and!; [done|by exists d|done].
  - intros Hv Hall. destruct (Hnan Hv Hall) as (?&?&?).
    split; [order|]. intros _. split; [order|].
    split_and!; [done| |done]. exists d. split; [done|].
    pose proof (Forall_lookup_1 _ _ _ _ Hall Hd') as H'. simpl in H'.
    pose proof (nq_cases d). rewrite is_nan_nq in H'. order.
Qed.

Lemma get_index_sound_witness :
  ∃ lo hi, (Int <$> [5; 1; 9; 8]%Z) !! 0%nat = Some lo ∧
    last (Int <$> [5; 1; 9; 8]%Z) = Some hi ∧
    (2 < length (Int <$> [5; 1; 9; 8]%Z))%nat ∧ ¬ hi < Float 7.5 ∧
    (2%nat = 0%nat → Float 7.5 < lo) ∧
    ((1 ≤ 2)%nat →
     ¬ Float 7.5 < lo ∧
     first_index_not_below 1 (Int <$> [5; 1; 9; 8]%Z) (Float 7.5) 2) ∧
    (¬ is_nan (Float 7.5) →
     Forall (λ d, ¬ is_nan d) (Int <$> [5; 1; 9; 8]%Z) →
     Float 7.5 <= hi ∧
     ((1 ≤ 2)%nat →
      lo <= Float 7.5 ∧
      smallest_index_ge_from 1 (Int <$> [5; 1; 9; 8]%Z) (Float 7.5) 2)).
Proof.
  apply (get_index_sound (Float 7.5) (Int <$> [5; 1; 9; 8]%Z) (Some 2%nat)).
  reflexivity.
Defined.

(** ** linear_interpolate *)

Lemma bind_ret {A} (r : result A) : (x ← r; mret x) = r.
Proof. by destruct r. Qed.

(** After the locator has returned, the interpolator reads the four table
    entries in the order of the source and evaluates the formula. *)
Lemma linear_interpolate_steps target_x x_data y_data located :
  get_index target_x x_data = Ok located →
  linear_interpolate target_x x_data y_data
  = (let k := bracketing_index located (length x_data) in
     x_n1 ← Py.getitem x_data k;
     x_n ← Py.getitem x_data (k - 1);
     y_n1 ← Py.getitem y_data k;
     y_n ← Py.getitem y_data (k - 1);
     interpolate_between x_n y_n x_n1 y_n1 target_x).
Proof.
  intros Hget.
  unfold linear_interpolate, bracketing_index, interpolate_between.
  rewrite Hget. destruct located; simpl;
    repeat (match goal with
            | |- (?r ≫= _) = (?r ≫= _) => destruct r; simpl; [|done]
            end);
    apply bind_ret.
Qed.

Lemma linear_interpolate_at target_x x_data y_data located k x0 y0 x1 y1 :
  get_index target_x x_data = Ok located →
  k = bracketing_index located (length x_data) →
  x_data !! (k - 1)%nat = Some x0 → y_data !! (k - 1)%nat = Some y0 →
  x_data !! k = Some x1 → y_data !! k = Some y1 →
  linear_interpolate target_x x_data y_data
  = interpolate_between x0 y0 x1 y1 target_x.
Proof.
  intros Hget -> Hx0 Hy0 Hx1 Hy1.
  rewrite (linear_interpolate_steps _ _ _ _ Hget). cbv zeta.
  by rewrite (getitem_ok _ _ _ Hx1), (getitem_ok _ _ _ Hx0),
    (getitem_ok _ _ _ Hy1), (getitem_ok _ _ _ Hy0).
Qed.

(** On two or more elements the locator returns and the interpolator works
    on a position [k] with [1 <= k < length x_data]. *)
Lemma bracketing_index_in_range target_x x_data :
  (2 ≤ length x_data)%nat →
  ∃ located, get_index target_x x_data = Ok located ∧
    (1 ≤ bracketing_index located (length x_data) < length x_data)%nat.
Proof.
  intros Hlen.
  destruct (lookup_lt_is_Some_2 x_data 0 ltac:(lia)) as [lo Hlo].
  destruct (lookup_lt_is_Some_2 x_data (pred (length x_data)) ltac:(lia))
    as [hi Hhi].
  rewrite <- last_lookup in Hhi. unfold bracketing_index.
  destruct (get_index_cases target_x x_data lo hi Hlo Hhi Hlen)
    as [[_ ->]|[(_ & _ & ->)|(_ & _ & i & -> & Hi & Hi1 & _)]]; simpl.
  - exists None. split; [done|]. simpl.
    destruct (Nat.eqb_spec (length x_data - 1) 0); lia.
  - exists (Some 0%nat). split; [done|]. simpl. lia.
  - exists (Some i). split; [done|]. simpl. destruct (Nat.eqb_spec i 0); lia.
Qed.

(** The errors of the arithmetic: a conversion can overflow, a division can
    also divide by zero, and nothing else is raised. *)
Lemma to_float_errors a e : Py.to_float a = Raise e → e = OverflowError.
Proof.
  destruct a as [z|f]; simpl; [|done]. unfold Py.float_of_int.
  destruct (Z.abs z <? Py.int_limit)%Z; [done|congruence].
Qed.

Lemma mixed_errors (op : float → float → float) a b e :
  (fa ← Py.to_float a; fb ← Py.to_float b; mret (Float (op fa fb)))
  = Raise e → e = OverflowError.
Proof.
  destruct (Py.to_float a) as [fa|ea] eqn:Ha; simpl.
  - destruct (Py.to_float b) as [fb|eb] eqn:Hb; simpl; [done|].
    intros [= <-]. by eapply to_float_errors.
  - intros [= <-]. by eapply to_float_errors.
Qed.

Lemma sub_errors a b e : Py.sub a b = Raise e → e = OverflowError.
Proof.
  destruct a as [x|fa], b as [y|fb]; [done|..];
    match goal with
    | |- Py.sub ?a ?b = _ → _ => exact (mixed_errors PrimFloat.sub a b e)
    end.
Qed.

Lemma add_errors a b e : Py.add a b = Raise e → e = OverflowError.
Proof.
  destruct a as [x|fa], b as [y|fb]; [done|..];
    match goal with
    | |- Py.add ?a ?b = _ → _ => exact (mixed_errors PrimFloat.add a b e)
    end.
Qed.

Lemma mul_errors a b e : Py.mul a b = Raise e → e = OverflowError.
Proof.
  destruct a as [x|fa], b as [y|fb]; [done|..];
    match goal with
    | |- Py.mul ?a ?b = _ → _ => exact (mixed_errors PrimFloat.mul a b e)
    end.
Qed.

Lemma truediv_errors a b e :
  Py.truediv a b = Raise e → e = ZeroDivisionError ∨ e = OverflowError.
Proof.
  assert (Hmixed :
    (fa ← Py.to_float a; fb ← Py.to_float b;
     if (fb =? 0)%float then Raise ZeroDivisionError
     else mret (Float (fa / fb))) = Raise e →
    e = ZeroDivisionError ∨ e = OverflowError).
  { destruct (Py.to_float a) as [fa|ea] eqn:Ha; simpl.
    - destruct (Py.to_float b) as [fb|eb] eqn:Hb; simpl.
      + destruct (fb =? 0)%float; [|done]. intros [= <-]. by left.
      + intros [= <-]. right. by eapply to_float_errors.
    - intros [= <-]. right. by eapply to_float_errors. }
  destruct a as [x|fa], b as [y|fb]; try exact Hmixed.
  simpl. unfold Py.int_truediv.
  destruct (y =? 0)%Z; [intros [= <-]; by left|].
  destruct x; [done| |];
    destruct (SFdiv_core_binary _ _ _ _ _ _) as [[m e'] l];
    destruct (binary_round_aux _ _ _ _ _ _); simpl; try done;
    intros [= <-]; by right.
Qed.

Lemma interpolate_between_errors x0 y0 x1 y1 x e :
  interpolate_between x0 y0 x1 y1 x = Raise e →
  e = ZeroDivisionError ∨ e = OverflowError.
Proof.
  unfold interpolate_between.
  destruct (Py.sub y1 y0) as [rise|e1] eqn:H1; simpl;
    [|intros [= <-]; right; by eapply sub_errors].
  destruct (Py.sub x1 x0) as [run|e2] eqn:H2; simpl;
    [|intros [= <-]; right; by eapply sub_errors].
  destruct (Py.truediv rise run) as [slope|e3] eqn:H3; simpl;
    [|intros [= <-]; by eapply truediv_errors].
  destruct (Py.sub x x0) as [distance|e4] eqn:H4; simpl;
    [|intros [= <-]; right; by eapply sub_errors].
  destruct (Py.mul slope distance) as [product|e5] eqn:H5; simpl;
    [|intros [= <-]; right; by eapply mul_errors].
  intros H. right. by eapply add_errors.
Qed.

(** ** A valid table

    The contract of the interpolator: a strictly increasing [x_data] of two
    or more elements and a [y_data] of the same length. *)

Section ValidTable.

Context (x_data y_data : list num).
Hypothesis Hinc : strictly_increasing x_data.
Hypothesis Hlen : (2 ≤ length x_data)%nat.
Hypothesis Hylen : length y_data = length x_data.

(** On a valid table the interpolator evaluates its formula on an interval
    [k-1, k] inside the table: the first one for a target at or below the
    second breakpoint, the last one for a target above the last but one, and
    otherwise the one with [x0 < target_x <= x1]. *)
Lemma linear_interpolate_bracket target_x :
  ∃ located k x0 y0 x1 y1,
    get_index target_x x_data = Ok located ∧
    k = bracketing_index located (length x_data) ∧
    (1 ≤ k < length x_data)%nat ∧
    x_data !! (k - 1)%nat = Some x0 ∧ y_data !! (k - 1)%nat = Some y0 ∧
    x_data !! k = Some x1 ∧ y_data !! k = Some y1 ∧ x0 < x1 ∧
    (k = 1%nat ∨ x0 < target_x) ∧
    (k = (length x_data - 1)%nat ∨ Py.lt x1 target_x = false) ∧
    linear_interpolate target_x x_data y_data
    = interpolate_between x0 y0 x1 y1 target_x.
Proof.
  destruct (lookup_lt_is_Some_2 x_data 0 ltac:(lia)) as [lo Hlo].
  destruct (lookup_lt_is_Some_2 x_data (pred (length x_data)) ltac:(lia))
    as [hi Hhi].
  rewrite <- last_lookup in Hhi.
  assert (Hkey : ∃ located k,
    get_index target_x x_data = Ok located ∧
    k = bracketing_index located (length x_data) ∧
    (1 ≤ k < length x_data)%nat ∧
    (k = 1%nat ∨ ∀ x0, x_data !! (k - 1)%nat = Some x0 → x0 < target_x) ∧
    (k = (length x_data - 1)%nat ∨
     ∀ x1, x_data !! k = Some x1 → Py.lt x1 target_x = false)).
  { destruct (get_index_cases target_x x_data lo hi Hlo Hhi Hlen)
      as [[H Hget]|[(H1 & H2 & Hget)|(H1 & H2 & i & Hget & Hi & Hsm)]].
    - exists None, (length x_data - 1)%nat. unfold bracketing_index. simpl.
      destruct (Nat.eqb_spec (length x_data - 1) 0); [lia|].
      split_and!; [done|done|lia|lia| |by left].
      right. intros x0 Hx0. rewrite last_lookup in Hhi.
      pose proof (Hinc (length x_data - 1 - 1)%nat (pred (length x_data))
                    x0 hi ltac:(lia) Hx0 Hhi).
      order.
    - exists (Some 0%nat), 1%nat.
      split_and!; [done|done|lia|lia|by left|].
      right. intros x1 Hx1.
      pose proof (Hinc 0%nat 1%nat lo x1 ltac:(lia) Hlo Hx1). order.
    - destruct Hsm as (Hi1 & (d & Hd & Hvd) & Hbelow).
      exists (Some i), i. unfold bracketing_index. simpl.
      destruct (Nat.eqb_spec i 0); [lia|].
      split_and!; [done|done|lia|lia| |].
      + destruct (decide (i = 1%nat)) as [|Hne]; [by left|right].
        intros x0 Hx0. apply (Hbelow (i - 1)%nat); [lia|done].
      + right. intros x1 Hx1. by simplify_eq. }
  destruct Hkey as (located & k & Hget & Hk & Hrange & Hleft & Hright).
  destruct (lookup_lt_is_Some_2 x_data (k - 1) ltac:(lia)) as [x0 Hx0].
  destruct (lookup_lt_is_Some_2 x_data k ltac:(lia)) as [x1 Hx1].
  destruct (lookup_lt_is_Some_2 y_data (k - 1) ltac:(lia)) as [y0 Hy0].
  destruct (lookup_lt_is_Some_2 y_data k ltac:(lia)) as [y1 Hy1].
  assert (Hlt : x0 < x1) by (apply (Hinc (k - 1)%nat k); [lia|done..]).
  exists located, k, x0, y0, x1, y1.
  split_and!; try done; try lia.
  - destruct Hleft as [H|H]; [left; exact H|right; by apply H].
  - destruct Hright as [H|H]; [left; exact H|right; by apply H].
  - by eapply linear_interpolate_at.
Qed.


End ValidTable.


(** ** linear_interpolate against its formula *)

(** C2, as stated, fails for a target too large for binary64: on the
    altitude and pressure sequences of the table, which meet the
    precondition, and the int [10^400], the interpolator has no value.  The
    locator returns [None], the slope of the last interval is computed, and
    the difference [target_x - x_n], an int minus an int, is exact; its
    product with the float slope converts it to [float], which raises
    [OverflowError]. *)
Lemma linear_interpolate_overflows :
  strictly_increasing altitude_data ∧ (2 ≤ length altitude_data)%nat ∧
  length pressure_data = length altitude_data ∧
  get_index (Int (10 ^ 400)) altitude_data = Ok None ∧
  linear_interpolate (Int (10 ^ 400)) altitude_data pressure_data
  = Raise OverflowError.
Proof.
  split_and!; [by apply strictly_increasingb_sound|simpl; lia|done| |];
    vm_compute; reflexivity.
Qed.

(** The formula is evaluated in binary64, one rounding per operation: on
    [x_data = [0, 3, 6]] and [y_data = [0, 1, 2]] the value at 1 is the
    binary64 number nearest to a third, not a third. *)
Example linear_interpolate_rounds :
  linear_interpolate (Int 1) (Int <$> [0; 3; 6]%Z) (Int <$> [0; 1; 2]%Z)
  = Ok (Float 0x1.5555555555555p-2).
Proof. vm_compute. reflexivity. Qed.

(** Strictly increasing breakpoints can have a difference that rounds to
    zero: [2.0**53 < 2**53 + 1], and the int converts to [2.0**53]. *)
Example linear_interpolate_zero_run :
  strictly_increasing [Float 0x1p53; Int (2 ^ 53 + 1)] ∧
  linear_interpolate (Int 0) [Float 0x1p53; Int (2 ^ 53 + 1)] [Int 0; Int 1]
  = Raise ZeroDivisionError.
Proof.
  split; [by apply strictly_increasingb_sound|]. vm_compute. reflexivity.
Qed.

(** C2, amended.  For a strictly increasing [x_data] of two or more elements
    and a [y_data] of the same length, [get_index] returns; with its result
    mapped to [index] ([None] to [length x_data - 1], 0 to 1), positions
    [index - 1] and [index] are in range, hold [(x0, y0)] and [(x1, y1)] with
    [x0 < x1], and the outcome of [linear_interpolate] is the outcome of
    evaluating [y0 + ((y1 - y0) / (x1 - x0)) * (target_x - x0)] in Python's
    arithmetic: the same binary64 value, or the same error, which is then
    [ZeroDivisionError] or [OverflowError]. *)
Theorem linear_interpolate_spec target_x x_data y_data :
  strictly_increasing x_data → (2 ≤ length x_data)%nat →
  length y_data = length x_data →
  ∃ located index x0 y0 x1 y1,
    get_index target_x x_data = Ok located ∧
    index = match located with
            | None => (length x_data - 1)%nat
            | Some 0%nat => 1%nat
            | Some i => i
            end ∧
    (1 ≤ index < length x_data)%nat ∧
    x_data !! (index - 1)%nat = Some x0 ∧ y_data !! (index - 1)%nat = Some y0 ∧
    x_data !! index = Some x1 ∧ y_data !! index = Some y1 ∧
    x0 < x1 ∧
    linear_interpolate target_x x_data y_data
    = interpolate_between x0 y0 x1 y1 target_x ∧
    ∀ e, linear_interpolate target_x x_data y_data = Raise e →
         e = ZeroDivisionError ∨ e = OverflowError.
Proof.
  intros Hinc Hlen Hylen.
  destruct (linear_interpolate_bracket x_data y_data Hinc Hlen Hylen target_x)
    as (located & k & x0 & y0 & x1 & y1 & Hget & Hk & Hrange & Hx0 & Hy0
        & Hx1 & Hy1 & Hlt & _ & _ & Hli).
  exists located, k, x0, y0, x1, y1. split_and!; try done; try lia.
  - rewrite Hk. unfold bracketing_index.
    destruct located as [[|i]|]; simpl; [done..|].
    destruct (Nat.eqb_spec (length x_data - 1) 0); [lia|done].
  - intros e. rewrite Hli. apply interpolate_between_errors.
Qed.

Lemma linear_interpolate_spec_witness :
  ∃ located index x0 y0 x1 y1,
    get_index (Float 500) altitude_data = Ok located ∧
    index = match located with
            | None => (length altitude_data - 1)%nat
            | Some 0%nat => 1%nat
            | Some i => i
            end ∧
    (1 ≤ index < length altitude_data)%nat ∧
    altitude_data !! (index - 1)%nat = Some x0 ∧
    temperature_data !! (index - 1)%nat = Some y0 ∧
    altitude_data !! index = Some x1 ∧ temperature_data !! index = Some y1 ∧
    x0 < x1 ∧
    linear_interpolate (Float 500) altitude_data temperature_data
    = interpolate_between x0 y0 x1 y1 (Float 500) ∧
    ∀ e, linear_interpolate (Float 500) altitude_data temperature_data
         = Raise e →
         e = ZeroDivisionError ∨ e = OverflowError.
Proof.
  apply (linear_interpolate_spec (Float 500) altitude_data temperature_data).
  - apply strictly_increasingb_sound. reflexivity.
  - simpl. lia.
  - reflexivity.
Defined.

(** ** linear_interpolate outside its contract *)

(** X3.  On [x_data] and [y_data] of one length of two or more, sorted or
    not, [linear_interpolate] never raises [IndexError]: an error it raises
    is [ZeroDivisionError] or [OverflowError]. *)
Theorem linear_interpolate_raises_only_arithmetic target_x x_data y_data e :
  (2 ≤ length x_data)%nat → length y_data = length x_data →
  linear_interpolate target_x x_data y_data = Raise e →
  e = ZeroDivisionError ∨ e = OverflowError.
Proof.
  intros Hlen Hylen.
  destruct (bracketing_index_in_range target_x x_data Hlen)
    as (located & Hget & Hrange).
  set (k := bracketing_index located (length x_data)) in *.
  destruct (lookup_lt_is_Some_2 x_data (k - 1) ltac:(lia)) as [x0 Hx0].
  destruct (lookup_lt_is_Some_2 x_data k ltac:(lia)) as [x1 Hx1].
  destruct (lookup_lt_is_Some_2 y_data (k - 1) ltac:(lia)) as [y0 Hy0].
  destruct (lookup_lt_is_Some_2 y_data k ltac:(lia)) as [y1 Hy1].
  rewrite (linear_interpolate_at _ _ _ _ k _ _ _ _ Hget eq_refl Hx0 Hy0 Hx1 Hy1).
  apply interpolate_between_errors.
Qed.

Lemma linear_interpolate_raises_only_arithmetic_witness :
  ZeroDivisionError = ZeroDivisionError ∨ ZeroDivisionError = OverflowError.
Proof.
  apply (linear_interpolate_raises_only_arithmetic (Int 10)
           (Int <$> [1; 3; 3]%Z) (Int <$> [0; 1; 2]%Z) ZeroDivisionError).
  - simpl. lia.
  - reflexivity.
  - vm_compute. reflexivity.
Defined.

(** X4.  For a strictly increasing [x_data] of two or more elements,
    [linear_interpolate] is free of [IndexError] on every target exactly
    when [y_data] is at least as long as [x_data]: with a shorter [y_data]
    the target equal to the last breakpoint raises it. *)
Theorem linear_interpolate_index_error_iff x_data y_data :
  strictly_increasing x_data → (2 ≤ length x_data)%nat →
  (∀ target_x, linear_interpolate target_x x_data y_data ≠ Raise IndexError)
  ↔ (length x_data ≤ length y_data)%nat.
Proof.
  intros Hinc Hlen. split.
  - intros Hfree.
    destruct (decide (length x_data ≤ length y_data)%nat) as [|Hshort];
      [done|exfalso].
    set (n := length x_data) in *.
    destruct (lookup_lt_is_Some_2 x_data (n - 1) ltac:(lia)) as [hi Hhi].
    destruct (lookup_lt_is_Some_2 x_data (n - 1 - 1) ltac:(lia)) as [x0 Hx0].
    pose proof (strictly_increasing_nq x_data (n - 1) hi Hinc Hlen Hhi) as Hnq.
    assert (Hget : get_index hi x_data = Ok (Some (n - 1)%nat)).
    { apply (get_index_at_breakpoint hi x_data (n - 1) hi);
        [done|lia|done|order]. }
    apply (Hfree hi).
    rewrite (linear_interpolate_steps _ _ _ _ Hget).
    unfold bracketing_index. fold n. simpl.
    destruct (Nat.eqb_spec (n - 1) 0); [lia|]. cbv zeta.
    rewrite (getitem_ok _ _ _ Hhi), (getitem_ok _ _ _ Hx0). simpl.
    rewrite (getitem_none y_data (n - 1)); [reflexivity|].
    apply lookup_ge_None_2. lia.
  - intros Hylen target_x.
    destruct (bracketing_index_in_range target_x x_data Hlen)
      as (located & Hget & Hrange).
    set (k := bracketing_index located (length x_data)) in *.
    destruct (lookup_lt_is_Some_2 x_data (k - 1) ltac:(lia)) as [x0 Hx0].
    destruct (lookup_lt_is_Some_2 x_data k ltac:(lia)) as [x1 Hx1].
    destruct (lookup_lt_is_Some_2 y_data (k - 1) ltac:(lia)) as [y0 Hy0].
    destruct (lookup_lt_is_Some_2 y_data k ltac:(lia)) as [y1 Hy1].
    rewrite (linear_interpolate_at _ _ _ _ k _ _ _ _
               Hget eq_refl Hx0 Hy0 Hx1 Hy1).
    intros H. by destruct (interpolate_between_errors _ _ _ _ _ _ H).
Qed.

Lemma linear_interpolate_index_error_iff_witness :
  (∀ target_x,
     linear_interpolate target_x (Int <$> [0; 1; 2]%Z) (Int <$> [5; 7]%Z)
     ≠ Raise IndexError)
  ↔ (length (Int <$> [0; 1; 2]%Z) ≤ length (Int <$> [5; 7]%Z))%nat.
Proof.
  apply (linear_interpolate_index_error_iff
           (Int <$> [0; 1; 2]%Z) (Int <$> [5; 7]%Z)).
  - apply strictly_increasingb_sound. reflexivity.
  - simpl. lia.
Defined.

Example linear_interpolate_short_y_data :
  linear_interpolate (Int 2) (Int <$> [0; 1; 2]%Z) (Int <$> [5; 7]%Z)
  = Raise IndexError.
Proof. reflexivity. Qed.

(** X5.  [linear_interpolate] reads [y_data] only at positions of [x_data]:
    entries of [y_data] past the length of [x_data] never change the
    result, normal or not. *)
Theorem linear_interpolate_ignores_tail target_x x_data y_data :
  (length x_data ≤ length y_data)%nat →
  linear_interpolate target_x x_data y_data
  = linear_interpolate target_x x_data (take (length x_data) y_data).
Proof.
  intros Hylen. unfold linear_interpolate.
  destruct (get_index target_x x_data) as [located|e]; [|done].
  cbn [mbind mret result_bind result_ret]. cbv zeta.
  set (k := if (_ =? 0)%nat then 1%nat else _).
  destruct (x_data !! k) as [x1|] eqn:Hx1;
    [rewrite (getitem_ok _ _ _ Hx1)|by rewrite (getitem_none _ _ Hx1)].
  destruct (x_data !! (k - 1)%nat) as [x0|] eqn:Hx0;
    [rewrite (getitem_ok _ _ _ Hx0)|by rewrite (getitem_none _ _ Hx0)].
  cbn [mbind mret result_bind result_ret].
  apply lookup_lt_Some in Hx1. apply lookup_lt_Some in Hx0.
  unfold Py.getitem. by rewrite !lookup_take_lt by lia.
Qed.

Lemma linear_interpolate_ignores_tail_witness :
  linear_interpolate (Float 1.5) (Int <$> [0; 1; 2]%Z) (Int <$> [5; 7; 6; 9]%Z)
  = linear_interpolate (Float 1.5) (Int <$> [0; 1; 2]%Z)
      (take (length (Int <$> [0; 1; 2]%Z)) (Int <$> [5; 7; 6; 9]%Z)).
Proof.
  apply (linear_interpolate_ignores_tail (Float 1.5)
           (Int <$> [0; 1; 2]%Z) (Int <$> [5; 7; 6; 9]%Z)).
  simpl. lia.
Defined.



(** Below and above the table of the module: 2000 m under its first
    breakpoint the density comes from the interval [-1000, 0], and 10000 m
    over its last from the interval [70000, 80000]. *)
Example linear_interpolate_extrapolates_table :
  linear_interpolate (Int (-3000)) altitude_data density_data
  = interpolate_between (Int (-1000)) (Float 1.347) (Int 0) (Float 1.225)
      (Int (-3000)) ∧
  linear_interpolate (Int 90000) altitude_data density_data
  = interpolate_between (Int 70000) (Float 8.283e-5) (Int 80000)
      (Float 1.846e-5) (Int 90000).
Proof. split; vm_compute; reflexivity. Qed.

(** ** The table *)

Lemma altitude_increasing : strictly_increasing altitude_data.
Proof. apply strictly_increasingb_sound. reflexivity. Qed.

Lemma altitude_two_points : (2 ≤ length altitude_data)%nat.
Proof. simpl. lia. Qed.

Lemma lookup_altitude :
  standard_atmosphere_lookup !! "altitude" = Some altitude_data.
Proof. reflexivity. Qed.

Lemma lookup_temperature :
  standard_atmosphere_lookup !! "temperature" = Some temperature_data.
Proof. reflexivity. Qed.

Lemma lookup_pressure :
  standard_atmosphere_lookup !! "pressure" = Some pressure_data.
Proof. reflexivity. Qed.

Lemma lookup_density :
  standard_atmosphere_lookup !! "density" = Some density_data.
Proof. reflexivity. Qed.

Lemma lookup_dynamic_viscosity :
  standard_atmosphere_lookup !! "dynamic_viscosity"
  = Some dynamic_viscosity_data.
Proof. reflexivity. Qed.

Lemma out_of_bounds_eq altitude :
  out_of_bounds altitude
  = Ok (Py.lt altitude (Int (-1000)) || Py.gt altitude (Int 80000)).
Proof.
  unfold out_of_bounds, Py.getkey. rewrite lookup_altitude.
  cbn [mbind mret result_bind result_ret].
  change (Py.getitem altitude_data 0) with (Ok (Int (-1000)) : result num).
  change (Py.getlast altitude_data) with (Ok (Int 80000) : result num).
  cbn [mbind mret result_bind result_ret].
  by destruct (Py.lt altitude (Int (-1000))).
Qed.

Lemma interpolate_column_eq altitude key ys :
  standard_atmosphere_lookup !! key = Some ys →
  interpolate_column altitude key = linear_interpolate altitude altitude_data ys.
Proof.
  intros Hkey. unfold interpolate_column, Py.getkey.
  by rewrite lookup_altitude, Hkey.
Qed.

(** ** The accessors, unfolded on the table *)

(** Evaluates the bounds test and the two dict look-ups of an accessor, then
    goes by cases on the result of the interpolator, on the test and on the
    result of the unit conversion. *)
Ltac unfold_accessor lookup_column :=
  unfold warning_lines, clamp;
  rewrite out_of_bounds_eq, (interpolate_column_eq _ _ _ lookup_column);
  destruct (linear_interpolate _ altitude_data _);
  destruct (Py.lt _ (Int (-1000)) || Py.gt _ (Int 80000));
  try done; cbn; by destruct (Py.mul _ _).

Lemma get_pressure_eq altitude :
  get_pressure altitude
  = (warning_lines altitude pressure_warning,
     v ← linear_interpolate altitude altitude_data pressure_data;
     Py.mul (clamp v) (Float (Py.math_pow_10 4))).
Proof. unfold get_pressure. unfold_accessor lookup_pressure. Qed.

Lemma get_temperature_eq altitude :
  get_temperature altitude
  = (warning_lines altitude temperature_warning,
     linear_interpolate altitude altitude_data temperature_data).
Proof. unfold get_temperature. unfold_accessor lookup_temperature. Qed.

Lemma get_density_eq altitude :
  get_density altitude
  = (warning_lines altitude density_warning,
     v ← linear_interpolate altitude altitude_data density_data;
     mret (clamp v)).
Proof. unfold get_density. unfold_accessor lookup_density. Qed.

Lemma get_dynamic_viscocity_eq altitude :
  get_dynamic_viscocity altitude
  = (warning_lines altitude dynamic_viscocity_warning,
     v ← linear_interpolate altitude altitude_data dynamic_viscosity_data;
     Py.mul (clamp v) (Float (Py.math_pow_10 (-5)))).
Proof.
  unfold get_dynamic_viscocity. unfold_accessor lookup_dynamic_viscosity.
Qed.

(** ** Intervals of a table *)

Lemma segments_ok_lookup xs ys k x0 y0 x1 y1 :
  segments_ok xs ys = true →
  xs !! k = Some x0 → ys !! k = Some y0 →
  xs !! S k = Some x1 → ys !! S k = Some y1 →
  segment_ok x0 y0 x1 y1 = true.
Proof.
  revert ys k. induction xs as [|a xs IH]; intros ys k Hok; [done|].
  destruct xs as [|b xs]; [by destruct k|].
  destruct ys as [|c ys]; [done|]. destruct ys as [|d ys]; [by destruct k|].
  apply andb_prop in Hok as [Hseg Hok].
  destruct k as [|k]; simpl.
  - by intros [= <-] [= <-] [= <-] [= <-].
  - intros. by eapply (IH (d :: ys) k).
Qed.

Lemma interpolate_between_slope x0 y0 x1 y1 x :
  interpolate_between x0 y0 x1 y1 x
  = (slope ← segment_slope x0 y0 x1 y1;
     distance ← Py.sub x x0;
     product ← Py.mul slope distance;
     Py.add y0 product).
Proof.
  unfold interpolate_between, segment_slope.
  destruct (Py.sub y1 y0); [|done]. simpl. by destruct (Py.sub x1 x0).
Qed.

Lemma int_limit_large : (2 ^ 64 < Py.int_limit)%Z.
Proof. reflexivity. Qed.

Lemma float_of_int_small z :
  (Z.abs z < Py.int_limit)%Z → ∃ f, Py.float_of_int z = Ok f.
Proof.
  intros H. unfold Py.float_of_int.
  destruct (Z.ltb_spec (Z.abs z) Py.int_limit); [by eexists|lia].
Qed.

Lemma float_of_int_large z :
  (Py.int_limit <= Z.abs z)%Z → Py.float_of_int z = Raise OverflowError.
Proof.
  intros H. unfold Py.float_of_int.
  destruct (Z.ltb_spec (Z.abs z) Py.int_limit); [lia|done].
Qed.

(** The formula on an interval of the table: its only operation that can
    raise is the conversion of the int distance [altitude - x0]. *)
Lemma interpolate_between_table a y0 b y1 altitude :
  segment_ok (Int a) y0 (Int b) y1 = true →
  match altitude with
  | Int z =>
      ((Z.abs (z - a) < Py.int_limit)%Z ∧
       ∃ v, interpolate_between (Int a) y0 (Int b) y1 altitude = Ok (Float v))
      ∨ ((Py.int_limit <= Z.abs (z - a))%Z ∧
         interpolate_between (Int a) y0 (Int b) y1 altitude
         = Raise OverflowError)
  | Float f =>
      ∃ v, interpolate_between (Int a) y0 (Int b) y1 altitude = Ok (Float v)
  end.
Proof.
  unfold segment_ok. rewrite interpolate_between_slope.
  destruct (segment_slope (Int a) y0 (Int b) y1) as [[|s]|]; [done| |done].
  destruct (Py.to_float y0) as [fy|] eqn:Hy0; [|done].
  intros Hrange.
  apply andb_prop in Hrange as [Hrange Hb].
  apply andb_prop in Hrange as [Ha Hab].
  assert (Hadd : ∀ p, Py.add y0 (Float p) = Ok (Float (fy + p))).
  { intros p. destruct y0; simpl in *; by rewrite ?Hy0; simplify_eq. }
  pose proof int_limit_large as Hlarge.
  destruct altitude as [z|f]; cbn [mbind result_bind Py.sub].
  - destruct (Z.lt_ge_cases (Z.abs (z - a)) Py.int_limit) as [Hd|Hd].
    + left. split; [done|].
      destruct (float_of_int_small _ Hd) as [fd Hfd].
      unfold Py.mul. cbn. rewrite Hfd. cbn. rewrite Hadd. by eexists.
    + right. split; [done|].
      unfold Py.mul. cbn. by rewrite (float_of_int_large _ Hd).
  - destruct (float_of_int_small a) as [fa Hfa].
    { apply Z.leb_le in Ha, Hb. apply Z.ltb_lt in Hab.
      assert (2 ^ 64 = 18446744073709551616)%Z by reflexivity. lia. }
    cbn. rewrite Hfa. cbn. rewrite Hadd. by eexists.
Qed.

(** ** The interpolator on the table of the module *)

(** On a column of the table the interpolator returns a float; the one
    exception is an int altitude so large that its distance to the
    breakpoint below it does not convert, for which it raises
    [OverflowError]. *)
Lemma linear_interpolate_table ys altitude :
  length ys = length altitude_data → segments_ok altitude_data ys = true →
  (¬ beyond_binary64 altitude ∧
   ∃ v, linear_interpolate altitude altitude_data ys = Ok (Float v))
  ∨ (beyond_binary64 altitude ∧
     linear_interpolate altitude altitude_data ys = Raise OverflowError).
Proof.
  intros Hylen Hok.
  destruct (linear_interpolate_bracket altitude_data ys altitude_increasing
              altitude_two_points Hylen altitude)
    as (located & k & x0 & y0 & x1 & y1 & _ & _ & Hk & Hx0 & Hy0 & Hx1 & Hy1
        & _ & Hleft & Hright & ->).
  assert (Hseg : segment_ok x0 y0 x1 y1 = true).
  { apply (segments_ok_lookup altitude_data ys (k - 1)); try done;
      by replace (S (k - 1)) with k by lia. }
  destruct x0 as [a|]; [|done]. destruct x1 as [b|]; [|by destruct y0].
  pose proof (interpolate_between_table a y0 b y1 altitude Hseg) as Hval.
  assert (Hrange : (-1000 <= a ∧ a < b ∧ b <= 80000)%Z).
  { unfold segment_ok in Hseg.
    destruct (segment_slope _ _ _ _) as [[|?]|]; try done.
    destruct (Py.to_float y0); [|done].
    apply andb_prop in Hseg as [Hseg Hb].
    apply andb_prop in Hseg as [Ha Hab].
    apply Z.leb_le in Ha, Hb. apply Z.ltb_lt in Hab. lia. }
  destruct altitude as [z|f].
  - assert (Hhigh : (80000 < z → a = 70000)%Z).
    { intros Hz. destruct Hright as [->|Hright].
      - vm_compute in Hx0. by simplify_eq.
      - rewrite lt_int in Hright. apply Z.ltb_ge in Hright. lia. }
    assert (Hlow : (z < -1000 → a = -1000)%Z).
    { intros Hz. destruct Hleft as [->|Hleft].
      - vm_compute in Hx0. by simplify_eq.
      - rewrite lt_int in Hleft. apply Z.ltb_lt in Hleft. lia. }
    pose proof int_limit_large as Hlarge.
    change (2 ^ 64)%Z with 18446744073709551616%Z in Hlarge.
    destruct Hval as [[Hd Hv]|[Hd Hv]].
    + left. split; [|done]. intros (z' & [= <-] & Hz). lia.
    + right. split; [|done]. exists z. split; [done|]. lia.
  - left. split; [|done]. by intros (z & ? & _).
Qed.

Lemma pressure_segments : segments_ok altitude_data pressure_data = true.
Proof. vm_compute. reflexivity. Qed.

Lemma temperature_segments : segments_ok altitude_data temperature_data = true.
Proof. vm_compute. reflexivity. Qed.

Lemma density_segments : segments_ok altitude_data density_data = true.
Proof. vm_compute. reflexivity. Qed.

Lemma dynamic_viscosity_segments :
  segments_ok altitude_data dynamic_viscosity_data = true.
Proof. vm_compute. reflexivity. Qed.

(** ** Signs of floats *)

Lemma float_negative f :
  Py.lt (Float f) (Int 0) = true
  ↔ Prim2SF f = S754_infinity true ∨ ∃ m e, Prim2SF f = S754_finite true m e.
Proof.
  unfold Py.lt, Py.exact_of, Py.exact_of_float.
  destruct (Prim2SF f) as [s|[]| |[] m e]; simpl.
  - split; [done|]. by intros [|(? & ? & ?)].
  - split; [by left|done].
  - split; [done|]. by intros [|(? & ? & ?)].
  - split; [done|]. by intros [|(? & ? & ?)].
  - split; [by right; eauto|]. intros _. apply Qltb_lt.
    pose proof (Qpower_0_lt 2 e ltac:(reflexivity)) as Hpow.
    assert (Hneg : (inject_Z (Z.neg m) < 0)%Q) by done.
    change (inject_Z 0) with 0%Q. change (- Z.pos m)%Z with (Z.neg m).
    revert Hpow Hneg. generalize (2 ^ e)%Q, (inject_Z (Z.neg m)).
    intros p q Hp Hq. nra.
  - split; [|by intros [|(? & ? & ?)]]. intros H. exfalso.
    apply Qltb_lt in H.
    pose proof (Qpower_0_lt 2 e ltac:(reflexivity)) as Hpow.
    assert (Hpos : (0 < inject_Z (Z.pos m))%Q) by done.
    change (inject_Z 0) with 0%Q in H.
    revert Hpow Hpos H. generalize (2 ^ e)%Q, (inject_Z (Z.pos m)).
    intros p q Hp Hq H. nra.
Qed.

Lemma binary_round_aux_sign s m e l :
  match binary_round_aux prec emax s m e l with
  | S754_infinity s' | S754_finite s' _ _ => s' = s
  | _ => True
  end.
Proof.
  unfold binary_round_aux.
  destruct (shr_fexp _ _ _ _ _) as [mrs' e'].
  destruct (shr_fexp _ _ _ _ _) as [mrs'' e''].
  destruct (shr_m mrs''); [done| |done].
  by destruct (_ <=? _)%Z.
Qed.

(** A product of two floats that are not negative is not negative. *)
Lemma mul_not_negative f c :
  Py.lt (Float f) (Int 0) = false → Py.lt (Float c) (Int 0) = false →
  Py.lt (Float (f * c)) (Int 0) = false.
Proof.
  rewrite <- !not_true_iff_false, !float_negative, mul_spec.
  intros Hf Hc. unfold SF64mul, SFmul.
  assert (Hsf : ∀ s m e, Prim2SF f = S754_finite s m e → s = false).
  { intros [] m e H; [|done]. destruct Hf. eauto. }
  assert (Hsc : ∀ s m e, Prim2SF c = S754_finite s m e → s = false).
  { intros [] m e H; [|done]. destruct Hc. eauto. }
  destruct (Prim2SF f) as [zf|[]| |sf mf ef]; [|by destruct Hf; left| | |];
    (destruct (Prim2SF c) as [zc|[]| |sc mc ec];
       [|by destruct Hc; left| | |]);
    try rewrite (Hsf _ _ _ eq_refl); try rewrite (Hsc _ _ _ eq_refl);
    cbn [xorb]; try (by intros [|(? & ? & ?)]).
  pose proof (binary_round_aux_sign false (Z.pos (mf * mc)) (ef + ec)
                loc_Exact) as Hs.
  intros [H|(m & e & H)]; rewrite H in Hs; done.
Qed.

(** Clamping and then converting units gives a float that is not
    negative. *)
Lemma mul_clamp_not_negative v c :
  Py.lt (Float c) (Int 0) = false → Py.lt (Float (0 * c)) (Int 0) = false →
  ∃ w, Py.mul (clamp (Float v)) (Float c) = Ok (Float w) ∧
       Py.lt (Float w) (Int 0) = false.
Proof.
  intros Hc H0. unfold clamp.
  destruct (Py.lt (Float v) (Int 0)) eqn:Hv.
  - exists (0 * c)%float. split; [|done]. reflexivity.
  - exists (v * c)%float. split; [done|]. by apply mul_not_negative.
Qed.

Lemma clamp_not_negative v : Py.lt (clamp v) (Int 0) = false.
Proof. unfold clamp. by destruct (Py.lt v (Int 0)) eqn:H. Qed.

(** ** The outcomes of the accessors *)

Lemma get_pressure_cases altitude :
  (¬ beyond_binary64 altitude ∧
   ∃ p, outcome (get_pressure altitude) = Ok (Float p) ∧
        Py.lt (Float p) (Int 0) = false)
  ∨ (beyond_binary64 altitude ∧
     outcome (get_pressure altitude) = Raise OverflowError).
Proof.
  rewrite get_pressure_eq. unfold outcome. cbn [snd].
  destruct (linear_interpolate_table pressure_data altitude eq_refl
              pressure_segments) as [[Hin [v ->]]|[Hout ->]];
    [left|by right].
  split; [done|]. by apply mul_clamp_not_negative.
Qed.

Lemma get_temperature_cases altitude :
  (¬ beyond_binary64 altitude ∧
   ∃ t, outcome (get_temperature altitude) = Ok (Float t))
  ∨ (beyond_binary64 altitude ∧
     outcome (get_temperature altitude) = Raise OverflowError).
Proof.
  rewrite get_temperature_eq. unfold outcome. cbn [snd].
  destruct (linear_interpolate_table temperature_data altitude eq_refl
              temperature_segments) as [[Hin [v ->]]|[Hout ->]];
    [left|by right].
  split; [done|]. by eexists.
Qed.

Lemma get_density_cases altitude :
  (¬ beyond_binary64 altitude ∧
   ∃ d, outcome (get_density altitude) = Ok d ∧ Py.lt d (Int 0) = false)
  ∨ (beyond_binary64 altitude ∧
     outcome (get_density altitude) = Raise OverflowError).
Proof.
  rewrite get_density_eq. unfold outcome. cbn [snd].
  destruct (linear_interpolate_table density_data altitude eq_refl
              density_segments) as [[Hin [v ->]]|[Hout ->]];
    [left|by right].
  split; [done|]. eexists. split; [done|]. apply clamp_not_negative.
Qed.

Lemma get_dynamic_viscocity_cases altitude :
  (¬ beyond_binary64 altitude ∧
   ∃ v, outcome (get_dynamic_viscocity altitude) = Ok (Float v) ∧
        Py.lt (Float v) (Int 0) = false)
  ∨ (beyond_binary64 altitude ∧
     outcome (get_dynamic_viscocity altitude) = Raise OverflowError).
Proof.
  rewrite get_dynamic_viscocity_eq. unfold outcome. cbn [snd].
  destruct (linear_interpolate_table dynamic_viscosity_data altitude eq_refl
              dynamic_viscosity_segments) as [[Hin [v ->]]|[Hout ->]];
    [left|by right].
  split; [done|]. by apply mul_clamp_not_negative.
Qed.

Lemma get_standard_atmosphere_returns altitude p t v d :
  outcome (get_pressure altitude) = Ok p →
  outcome (get_temperature altitude) = Ok t →
  outcome (get_dynamic_viscocity altitude) = Ok v →
  outcome (get_density altitude) = Ok d →
  get_standard_atmosphere altitude
  = (stdout (get_pressure altitude) ++ stdout (get_temperature altitude)
     ++ stdout (get_dynamic_viscocity altitude)
     ++ stdout (get_density altitude),
     Ok (<["altitude" := altitude]> (<["density" := d]>
        (<["dynamic_viscosity" := v]> (<["temperature" := t]>
        (<["pressure" := p]> ∅)))))).
Proof.
  unfold get_standard_atmosphere, outcome, stdout.
  destruct (get_pressure altitude) as [w1 r1].
  destruct (get_temperature altitude) as [w2 r2].
  destruct (get_dynamic_viscocity altitude) as [w3 r3].
  destruct (get_density altitude) as [w4 r4].
  simpl. intros -> -> -> ->. simpl. by rewrite app_nil_r.
Qed.

Lemma get_standard_atmosphere_raises altitude e :
  outcome (get_pressure altitude) = Raise e →
  get_standard_atmosphere altitude
  = (stdout (get_pressure altitude), Raise e).
Proof.
  unfold get_standard_atmosphere, outcome, stdout.
  destruct (get_pressure altitude) as [w1 r1]. simpl. by intros ->.
Qed.

(** The accessors stand or fall together: all of them return, or the
    altitude is an int beyond binary64 and all of them raise
    [OverflowError]. *)
Lemma accessors_cases altitude :
  (¬ beyond_binary64 altitude ∧
   ∃ p t d v,
     accessors_return altitude (Float p) (Float t) d (Float v) ∧
     Py.lt (Float p) (Int 0) = false ∧ Py.lt d (Int 0) = false ∧
     Py.lt (Float v) (Int 0) = false)
  ∨ (beyond_binary64 altitude ∧ accessors_raise altitude OverflowError).
Proof.
  destruct (get_pressure_cases altitude) as [[Hin (p & Hp & Hp0)]|[Hout Hp]];
    destruct (get_temperature_cases altitude) as [[? (t & Ht)]|[? Ht]];
    try done;
    destruct (get_density_cases altitude) as [[? (d & Hd & Hd0)]|[? Hd]];
    try done;
    destruct (get_dynamic_viscocity_cases altitude)
      as [[? (v & Hv & Hv0)]|[? Hv]];
    try done.
  - left. split; [done|]. by exists p, t, d, v.
  - right. split; [done|]. split_and!; try done.
    by rewrite (get_standard_atmosphere_raises _ _ Hp).
Qed.

(** ** The warning *)

Lemma warning_lines_out altitude line :
  warning_lines altitude line = [line]
  ↔ altitude < Int (-1000) ∨ altitude > Int 80000.
Proof.
  unfold warning_lines. rewrite <- orb_true_iff.
  by destruct (Py.lt altitude (Int (-1000)) || Py.gt altitude (Int 80000)).
Qed.

Lemma warning_lines_in altitude line :
  warning_lines altitude line = []
  ↔ (Int (-1000) <= altitude ∧ altitude <= Int 80000) ∨ is_nan altitude.
Proof.
  unfold warning_lines.
  assert (Hlo : (nq (Int (-1000)) == 0)%Q) by reflexivity.
  assert (Hhi : (nq (Int 80000) == 0)%Q) by reflexivity.
  pose proof (nq_cases altitude) as Hnq.
  destruct (Py.lt altitude (Int (-1000))) eqn:Elo; simpl.
  { split; [done|]. intros H. exfalso. order. }
  destruct (Py.gt altitude (Int 80000)) eqn:Ehi.
  { split; [done|]. intros H. exfalso. order. }
  split; [|done]. intros _. order.
Qed.

Lemma beyond_binary64_out altitude :
  beyond_binary64 altitude → altitude < Int (-1000) ∨ altitude > Int 80000.
Proof.
  intros (z & -> & Hz). unfold Py.gt. rewrite !lt_int.
  pose proof int_limit_large as Hlarge.
  change (2 ^ 64)%Z with 18446744073709551616%Z in Hlarge.
  destruct Hz; [left|right]; apply Z.ltb_lt; lia.
Qed.




(** Beyond the top of the table [get_pressure] warns and extrapolates from
    the interval [70000, 80000]; the extrapolation is negative there, so the
    result is the clamp, 0. *)
Example get_pressure_90000 :
  get_pressure (Int 90000) = ([pressure_warning], Ok (Float 0)) ∧
  linear_interpolate (Int 90000) altitude_data pressure_data
  = interpolate_between (Int 70000) (Float 0.00052) (Int 80000)
      (Float 0.00011) (Int 90000).
Proof. split; vm_compute; reflexivity. Qed.

(** ** The accessors return, or the altitude is beyond binary64 *)

(** C7, as stated, fails for an int altitude beyond binary64: for
    [-10^400] the locator returns 0, the slope of the first interval is
    computed, and the product of that float with the int distance raises
    [OverflowError], in every accessor and in [get_standard_atmosphere]. *)
Lemma accessors_overflow_below :
  get_index (Int (- 10 ^ 400)) altitude_data = Ok (Some 0%nat) ∧
  accessors_raise (Int (- 10 ^ 400)) OverflowError.
Proof. split; [|split_and!]; vm_compute; reflexivity. Qed.

(** C7, amended.  For every altitude the locator returns on the altitude
    sequence of the table and the index used by [linear_interpolate] is in
    range; on every interval of every column the slope is computed, without
    a division by zero; and the four accessors and
    [get_standard_atmosphere] all return, except for an int altitude at
    least [2^1024 - 2^970] away from the edge interval it is extrapolated
    from, for which all of them raise [OverflowError].  In particular they
    return for every float altitude and never raise any other error. *)
Theorem accessors_return_or_overflow altitude :
  (∃ located,
     get_index altitude altitude_data = Ok located ∧
     (1 ≤ bracketing_index located (length altitude_data)
      < length altitude_data)%nat) ∧
  segments_ok altitude_data pressure_data = true ∧
  segments_ok altitude_data temperature_data = true ∧
  segments_ok altitude_data density_data = true ∧
  segments_ok altitude_data dynamic_viscosity_data = true ∧
  ((¬ beyond_binary64 altitude ∧
    ∃ p t d v dict,
      accessors_return altitude p t d v ∧
      outcome (get_standard_atmosphere altitude) = Ok dict)
   ∨ (beyond_binary64 altitude ∧ accessors_raise altitude OverflowError)).
Proof.
  split; [apply bracketing_index_in_range, altitude_two_points|].
  split; [apply pressure_segments|]. split; [apply temperature_segments|].
  split; [apply density_segments|]. split; [apply dynamic_viscosity_segments|].
  destruct (accessors_cases altitude)
    as [[Hin (p & t & d & v & Hret & _)]|Hout]; [left|by right].
  split; [done|]. exists (Float p), (Float t), d, (Float v). eexists.
  split; [done|]. destruct Hret as (Hp & Ht & Hd & Hv).
  by rewrite (get_standard_atmosphere_returns _ _ _ _ _ Hp Ht Hv Hd).
Qed.

(** Infinite float altitudes are altitudes like any other. *)
Example accessors_at_infinity :
  get_pressure (Float infinity) = ([pressure_warning], Ok (Float 0)) ∧
  get_pressure (Float neg_infinity)
  = ([pressure_warning], Ok (Float infinity)) ∧
  get_temperature (Float infinity)
  = ([temperature_warning], Ok (Float neg_infinity)).
Proof. split_and!; vm_compute; reflexivity. Qed.

(** The bound of [beyond_binary64] is sharp. *)
Example beyond_binary64_sharp :
  outcome (get_pressure (Int (Py.int_limit + 69999))) = Ok (Float 0) ∧
  outcome (get_pressure (Int (Py.int_limit + 70000))) = Raise OverflowError.
Proof. split; vm_compute; reflexivity. Qed.

(** ** get_standard_atmosphere *)

(** C6, as stated, fails for an int altitude beyond binary64: for [10^400]
    there is no record, [get_standard_atmosphere] raises [OverflowError] in
    its first call, that of [get_pressure]. *)
Lemma get_standard_atmosphere_overflows :
  get_standard_atmosphere (Int (10 ^ 400))
  = ([pressure_warning], Raise OverflowError) ∧
  outcome (get_pressure (Int (10 ^ 400))) = Raise OverflowError.
Proof. split; vm_compute; reflexivity. Qed.

(** C6, amended.  For every altitude for which the accessors return, that
    is for every altitude but the ints beyond binary64,
    [get_standard_atmosphere] returns a dict that holds under 'pressure',
    'temperature', 'density' and 'dynamic_viscosity' the very values that
    [get_pressure], [get_temperature], [get_density] and
    [get_dynamic_viscocity] return for that altitude, and under 'altitude'
    the altitude itself.  For an int altitude beyond binary64 the four
    accessors and [get_standard_atmosphere] raise [OverflowError]. *)
Theorem get_standard_atmosphere_fields altitude :
  (¬ beyond_binary64 altitude ∧
   ∃ p t d v (dict : gmap string num),
     accessors_return altitude p t d v ∧
     outcome (get_standard_atmosphere altitude) = Ok dict ∧
     dict !! "pressure" = Some p ∧
     dict !! "temperature" = Some t ∧
     dict !! "density" = Some d ∧
     dict !! "dynamic_viscosity" = Some v ∧
     dict !! "altitude" = Some altitude)
  ∨ (beyond_binary64 altitude ∧ accessors_raise altitude OverflowError).
Proof.
  destruct (accessors_cases altitude)
    as [[Hin (p & t & d & v & Hret & _)]|Hout]; [left|by right].
  split; [done|]. exists (Float p), (Float t), d, (Float v). eexists.
  split; [done|]. destruct Hret as (Hp & Ht & Hd & Hv).
  rewrite (get_standard_atmosphere_returns _ _ _ _ _ Hp Ht Hv Hd).
  split; [reflexivity|]. split_and!; by simplify_map_eq.
Qed.

(** X11.  One call of [get_standard_atmosphere] prints nothing for an
    altitude inside [-1000, 80000] (or a NaN); outside it, it prints
    exactly four lines, the warnings of [get_pressure], [get_temperature],
    [get_dynamic_viscocity] and [get_density] in the order of the calls;
    except for an int altitude beyond binary64, where it prints the warning
    of [get_pressure] alone and raises [OverflowError]. *)
Theorem get_standard_atmosphere_stdout altitude :
  (stdout (get_standard_atmosphere altitude) = []
   ↔ (Int (-1000) <= altitude ∧ altitude <= Int 80000) ∨ is_nan altitude) ∧
  (stdout (get_standard_atmosphere altitude)
   = [pressure_warning; temperature_warning; dynamic_viscocity_warning;
      density_warning]
   ↔ (altitude < Int (-1000) ∨ altitude > Int 80000) ∧
     ¬ beyond_binary64 altitude) ∧
  (get_standard_atmosphere altitude
   = ([pressure_warning], Raise OverflowError)
   ↔ beyond_binary64 altitude).
Proof.
  pose proof (warning_lines_out altitude) as Hwout.
  pose proof (warning_lines_in altitude) as Hwin.
  destruct (accessors_cases altitude)
    as [[Hin (p & t & d & v & Hret & _)]|[Hout Hraise]].
  - destruct Hret as (Hp & Ht & Hd & Hv).
    rewrite (get_standard_atmosphere_returns _ _ _ _ _ Hp Ht Hv Hd).
    unfold stdout. cbn [fst].
    rewrite get_pressure_eq, get_temperature_eq, get_density_eq,
      get_dynamic_viscocity_eq. cbn [fst].
    unfold warning_lines in *.
    destruct (Py.lt altitude (Int (-1000)) || Py.gt altitude (Int 80000)).
    + simpl. split_and!.
      * rewrite <- (Hwin pressure_warning). done.
      * rewrite <- (Hwout pressure_warning). split; [done|]. by intros _.
      * split; [done|]. by intros ?.
    + simpl. split_and!.
      * by rewrite <- (Hwin pressure_warning).
      * rewrite <- (Hwout pressure_warning). split; [done|]. by intros [? _].
      * split; [done|]. by intros ?.
  - destruct Hraise as (Hp & _).
    rewrite (get_standard_atmosphere_raises _ _ Hp).
    unfold stdout. cbn [fst]. rewrite get_pressure_eq. cbn [fst].
    rewrite (proj2 (Hwout pressure_warning) (beyond_binary64_out _ Hout)).
    split_and!.
    + split; [done|]. intros H. apply (Hwin pressure_warning) in H.
      by rewrite (proj2 (Hwout pressure_warning)
                    (beyond_binary64_out _ Hout)) in H.
    + split; [done|]. by intros [_ ?].
    + done.
Qed.


(** ** Clamping *)



(** At 1,000,000 m the three extrapolations are negative and clamped to 0;
    at -1,000,000 m they are positive and returned as they are. *)
Example accessors_at_extremes :
  outcome (get_pressure (Int 1000000)) = Ok (Float 0) ∧
  outcome (get_density (Int 1000000)) = Ok (Int 0) ∧
  outcome (get_dynamic_viscocity (Int 1000000)) = Ok (Float 0) ∧
  outcome (get_pressure (Int (-1000000))) = Ok (Float 12701299.999999998) ∧
  outcome (get_density (Int (-1000000))) = Ok (Float 123.22499999999988) ∧
  outcome (get_dynamic_viscocity (Int (-1000000)))
  = Ok (Float 0.00033789000000000025).
Proof. split_and!; vm_compute; reflexivity. Qed.

(** A NaN altitude is interpolated to a NaN, which is not negative and not
    greater than or equal to 0 either. *)
Example get_pressure_nan :
  outcome (get_pressure (Float nan)) = Ok (Float nan) ∧
  Py.lt (Float nan) (Int 0) = false ∧ Py.ge (Float nan) (Int 0) = false.
Proof. split_and!; vm_compute; reflexivity. Qed.

(** ** The invariant of the table *)

(** C9.  The table holds five sequences of one length, 21, which is at
    least 2, and its altitude sequence is strictly increasing. *)
Theorem table_invariant :
  ∃ xs ts ps ds vs,
    standard_atmosphere_lookup !! "altitude" = Some xs ∧
    standard_atmosphere_lookup !! "temperature" = Some ts ∧
    standard_atmosphere_lookup !! "pressure" = Some ps ∧
    standard_atmosphere_lookup !! "density" = Some ds ∧
    standard_atmosphere_lookup !! "dynamic_viscosity" = Some vs ∧
    length ts = length xs ∧ length ps = length xs ∧
    length ds = length xs ∧ length vs = length xs ∧
    (2 ≤ length xs)%nat ∧ length xs = 21%nat ∧
    strictly_increasing xs ∧ strictly_increasingb xs = true.
Proof.
  exists altitude_data, temperature_data, pressure_data, density_data,
    dynamic_viscosity_data.
  split_and!; try reflexivity; [simpl; lia|apply altitude_increasing].
Qed.

(** ** Concrete values *)

(** C8, as stated, fails in its second value: [get_pressure(0)] is
    101300.00000000001, the binary64 product of 10.13 and 10^4, which is
    greater than 101300. *)
Lemma get_pressure_0_inexact :
  outcome (get_pressure (Int 0)) = Ok (Float 101300.00000000001) ∧
  outcome (get_pressure (Int 0)) ≠ Ok (Float 101300) ∧
  outcome (get_pressure (Int 0)) ≠ Ok (Int 101300) ∧
  Py.eq (Float 101300.00000000001) (Int 101300) = false ∧
  Py.gt (Float 101300.00000000001) (Int 101300) = true.
Proof. split_and!; by vm_compute. Qed.

(** C8, amended.  [get_temperature(500)] is 11.75, the value of the formula
    between 15 at altitude 0 and 8.5 at altitude 1000; [get_pressure(0)] is
    101300.00000000001, the binary64 product of 10.13 and 10^4, within a
    relative error of [10^-15] of 101300; [get_density(-5000)] is
    1.8349999999999995, the value of the formula on the interval
    [-1000, 0], returned as interpolated, not clamped, and greater than
    1.347, the density at -1000 m.  The same holds for the float
    altitudes 500.0, 0.0 and -5000.0. *)
Theorem concrete_scenarios :
  outcome (get_temperature (Int 500)) = Ok (Float 11.75) ∧
  outcome (get_temperature (Float 500)) = Ok (Float 11.75) ∧
  interpolate_between (Int 0) (Int 15) (Int 1000) (Float 8.5) (Int 500)
  = Ok (Float 11.75) ∧
  outcome (get_pressure (Int 0)) = Ok (Float 101300.00000000001) ∧
  outcome (get_pressure (Float 0)) = Ok (Float 101300.00000000001) ∧
  Py.mul (Float 10.13) (Float (Py.math_pow_10 4))
  = Ok (Float 101300.00000000001) ∧
  close_to (Float 101300.00000000001) (Int 101300) = true ∧
  outcome (get_density (Int (-5000))) = Ok (Float 1.8349999999999995) ∧
  outcome (get_density (Float (-5000))) = Ok (Float 1.8349999999999995) ∧
  linear_interpolate (Int (-5000)) altitude_data density_data
  = Ok (Float 1.8349999999999995) ∧
  interpolate_between (Int (-1000)) (Float 1.347) (Int 0) (Float 1.225)
    (Int (-5000))
  = Ok (Float 1.8349999999999995) ∧
  density_data !! 0%nat = Some (Float 1.347) ∧
  Float 1.8349999999999995 > Float 1.347.
Proof. split_and!; vm_compute; reflexivity. Qed.

(** ** Table recovery *)

(** C3, as stated, fails at ten pairs of an accessor and a breakpoint: at
    40000 m, for one, [get_pressure] returns 287.00000000000006 while the
    stored value 0.0287 times 10^4 is 287.0.  The value at a breakpoint is
    computed from the interval that ends there, and its roundings do not
    cancel. *)
Lemma get_pressure_40000_inexact :
  altitude_data !! 16%nat = Some (Int 40000) ∧
  outcome (get_pressure (Int 40000)) = Ok (Float 287.00000000000006) ∧
  converted pressure_data 16 (Some (Py.math_pow_10 4)) = Ok (Float 287) ∧
  Py.eq (Float 287.00000000000006) (Float 287) = false.
Proof. split_and!; vm_compute; reflexivity. Qed.

(** The ten pairs, each with the index of its breakpoint. *)
Example table_recovery_inexact :
  Forall (λ '(k, z),
            altitude_data !! k = Some (Int z) ∧
            match outcome (get_pressure (Int z)),
                  converted pressure_data k (Some (Py.math_pow_10 4)) with
            | Ok p, Ok sp => Py.eq p sp = false
            | _, _ => False
            end)
    [(16%nat, 40000%Z); (17%nat, 50000%Z); (19%nat, 70000%Z);
     (20%nat, 80000%Z)] ∧
  Forall (λ '(k, z),
            altitude_data !! k = Some (Int z) ∧
            match outcome (get_density (Int z)),
                  converted density_data k None with
            | Ok d, Ok sd => Py.eq d sd = false
            | _, _ => False
            end)
    [(16%nat, 40000%Z); (17%nat, 50000%Z); (19%nat, 70000%Z);
     (20%nat, 80000%Z)] ∧
  Forall (λ '(k, z),
            altitude_data !! k = Some (Int z) ∧
            match outcome (get_temperature (Int z)),
                  converted temperature_data k None with
            | Ok t, Ok st => Py.eq t st = false
            | _, _ => False
            end)
    [(18%nat, 60000%Z); (19%nat, 70000%Z)].
Proof.
  split_and!; repeat apply Forall_cons_2; try apply Forall_nil_2;
    (split; vm_compute; reflexivity).
Qed.

(** C3, amended.  For every altitude equal to one of the 21 breakpoints,
    given as an int or as the float of that int, each accessor returns a
    value within a relative error of [10^-15] of the stored value of the
    table at that breakpoint after the unit conversion of the accessor.  The
    two are equal (Python's [==]) for [get_dynamic_viscocity] at every
    breakpoint, for [get_pressure] and [get_density] at every breakpoint but
    40000, 50000, 70000 and 80000, and for [get_temperature] at every
    breakpoint but 60000 and 70000. *)
Theorem accessors_recover_table k z f altitude :
  altitude_data !! k = Some (Int z) →
  Py.float_of_int z = Ok f →
  altitude = Int z ∨ altitude = Float f →
  ∃ p t d v sp st sd sv,
    accessors_return altitude p t d v ∧
    converted pressure_data k (Some (Py.math_pow_10 4)) = Ok sp ∧
    converted temperature_data k None = Ok st ∧
    converted density_data k None = Ok sd ∧
    converted dynamic_viscosity_data k (Some (Py.math_pow_10 (-5))) = Ok sv ∧
    close_to p sp = true ∧ close_to t st = true ∧
    close_to d sd = true ∧ close_to v sv = true ∧
    (In z [40000; 50000; 70000; 80000]%Z ∨ p == sp) ∧
    (In z [60000; 70000]%Z ∨ t == st) ∧
    (In z [40000; 50000; 70000; 80000]%Z ∨ d == sd) ∧
    v == sv.
Proof.
  intros Hk Hf Halt.
  assert (Hlen : (k < 21)%nat) by apply (lookup_lt_Some _ _ _ Hk).
  do 21 (destruct k as [|k];
    [injection Hk as <-; vm_compute in Hf; injection Hf as <-;
     destruct Halt as [->| ->]; do 8 eexists; unfold accessors_return;
     split_and!;
     try (vm_compute; reflexivity);
     first [right; vm_compute; reflexivity | left; simpl; tauto]|]).
  lia.
Qed.

Lemma accessors_recover_table_witness :
  ∃ p t d v sp st sd sv,
    accessors_return (Float 40000) p t d v ∧
    converted pressure_data 16 (Some (Py.math_pow_10 4)) = Ok sp ∧
    converted temperature_data 16 None = Ok st ∧
    converted density_data 16 None = Ok sd ∧
    converted dynamic_viscosity_data 16 (Some (Py.math_pow_10 (-5))) = Ok sv ∧
    close_to p sp = true ∧ close_to t st = true ∧
    close_to d sd = true ∧ close_to v sv = true ∧
    (In 40000%Z [40000; 50000; 70000; 80000]%Z ∨ p == sp) ∧
    (In 40000%Z [60000; 70000]%Z ∨ t == st) ∧
    (In 40000%Z [40000; 50000; 70000; 80000]%Z ∨ d == sd) ∧
    v == sv.
Proof.
  apply (accessors_recover_table 16 40000 40000%float (Float 40000)).
  - reflexivity.
  - vm_compute. reflexivity.
  - right. reflexivity.
Defined.
